(** * Real-time transcription session engine

    A shallow embedding of [services/realtime_service.py]
    (class [RealTimeTranscriptionService]) and the properties of its
    session registry, audio buffering, live analysis and summaries.

    Conventions of the embedding:
    - Python [str] values are [string]s; the text handled here is ASCII
      (code points below 128), on which [str.lower], [str.split] and
      [str.strip] are the functions of module [PyStr].
    - The dictionary [self.active_sessions] is a [gmap string Session].
    - Methods mutate the service in place; here they take the service
      state and return the new one next to their result.
    - [datetime.now()], the Whisper call and the GPT call are readings of
      the outside world: every call of a method receives them in an
      [Env] record, so that two calls may see different answers.
    - Python's [int / int] is the correctly rounded quotient; the model
      keeps the exact quotient as a rational number. *)

From Stdlib Require Import ZArith QArith Ascii String List Bool Lia.
From stdpp Require Import base option list gmap strings.

Local Open Scope Z_scope.
Local Open Scope string_scope.
Local Open Scope list_scope.

(** ** Python string operations used by the service *)

Module PyStr.

(** [c.lower()] for one ASCII character. *)
Definition lower_ascii (c : ascii) : ascii :=
  let n := N_of_ascii c in
  if ((65 <=? n) && (n <=? 90))%N then ascii_of_N (n + 32) else c.

(** [s.lower()] *)
Fixpoint lower (s : string) : string :=
  match s with
  | EmptyString => EmptyString
  | String c s' => String (lower_ascii c) (lower s')
  end.

(** [s.startswith(p)] *)
Fixpoint startswith (p s : string) : bool :=
  match p, s with
  | EmptyString, _ => true
  | String _ _, EmptyString => false
  | String a p', String b s' => if ascii_dec a b then startswith p' s' else false
  end.

(** [needle in hay] *)
Fixpoint contains (needle hay : string) : bool :=
  startswith needle hay ||
  match hay with
  | EmptyString => false
  | String _ hay' => contains needle hay'
  end.

(** [c.isspace()] on ASCII: tab, line feed, vertical tab, form feed,
    carriage return, the four separators 28..31 and the space. *)
Definition isspace (c : ascii) : bool :=
  let n := N_of_ascii c in
  (((9 <=? n) && (n <=? 13)) || ((28 <=? n) && (n <=? 32)))%N.

Definition is_empty (s : string) : bool :=
  match s with EmptyString => true | String _ _ => false end.

(** [s.split()]: the maximal runs of non-whitespace characters. [cur] is
    the token being read. *)
Fixpoint split_from (cur s : string) : list string :=
  match s with
  | EmptyString => if is_empty cur then [] else [cur]
  | String c s' =>
      if isspace c
      then (if is_empty cur then split_from EmptyString s'
            else cur :: split_from EmptyString s')
      else split_from (cur +:+ String c EmptyString) s'
  end.

Definition split (s : string) : list string := split_from EmptyString s.

Fixpoint lstrip (s : string) : string :=
  match s with
  | EmptyString => EmptyString
  | String c s' => if isspace c then lstrip s' else s
  end.

Fixpoint rstrip (s : string) : string :=
  match s with
  | EmptyString => EmptyString
  | String c s' =>
      let r := rstrip s' in
      if isspace c && is_empty r then EmptyString else String c r
  end.

(** [s.strip()] *)
Definition strip (s : string) : string := rstrip (lstrip s).

(** [sep.join(l)] *)
Fixpoint join (sep : string) (l : list string) : string :=
  match l with
  | [] => EmptyString
  | [x] => x
  | x :: rest => x +:+ sep +:+ join sep rest
  end.

(** Truth value of a string: [bool(s)]. *)
Definition truthy (s : string) : bool := negb (is_empty s).

(** The declarative reading of [needle in hay]. *)
Definition Substring (needle hay : string) : Prop :=
  exists pre post, hay = pre +:+ needle +:+ post.

(** [needle] occurs in [hay] up to the case of the letters: some substring
    of [hay] has the same lower-case form as [needle]. *)
Definition matches_ignoring_case (needle hay : string) : Prop :=
  exists u, Substring u hay /\ lower u = lower needle.

(** The words of a list are written in lower case. *)
Definition all_lowercase (ws : list string) : Prop :=
  Forall (fun w => lower w = w) ws.

End PyStr.

(** ** The live analysis snapshot and its updater *)

Record LiveAnalysis := mkLiveAnalysis {
  word_count : Z;
  speakers_detected : Z;
  current_topic : string;
  sentiment : string;
  action_items_detected : Z
}.

Definition set_word_count (n : Z) (a : LiveAnalysis) : LiveAnalysis :=
  mkLiveAnalysis n (speakers_detected a) (current_topic a) (sentiment a)
                 (action_items_detected a).

Definition set_current_topic (t : string) (a : LiveAnalysis) : LiveAnalysis :=
  mkLiveAnalysis (word_count a) (speakers_detected a) t (sentiment a)
                 (action_items_detected a).

Definition set_sentiment (s : string) (a : LiveAnalysis) : LiveAnalysis :=
  mkLiveAnalysis (word_count a) (speakers_detected a) (current_topic a) s
                 (action_items_detected a).

Definition set_action_items_detected (n : Z) (a : LiveAnalysis) : LiveAnalysis :=
  mkLiveAnalysis (word_count a) (speakers_detected a) (current_topic a)
                 (sentiment a) n.

(** The [keywords] dictionary, in its insertion order (the order in which
    [keywords.items()] yields its entries). *)
Definition keywords : list (string * list string) :=
  [ ("planning",  ["plan"; "schedule"; "timeline"; "roadmap"]);
    ("technical", ["code"; "bug"; "feature"; "development"; "api"]);
    ("business",  ["revenue"; "customer"; "market"; "sales"]);
    ("meeting",   ["agenda"; "action"; "decision"; "review"]) ].

Definition action_indicators : list string :=
  ["todo"; "action"; "assign"; "responsible"; "deadline"; "due"].

Definition positive_words : list string :=
  ["good"; "great"; "excellent"; "success"; "positive"].

Definition negative_words : list string :=
  ["issue"; "problem"; "concern"; "difficult"; "challenge"].

(** [any(word in text_lower for word in words_list)] *)
Definition any_in (words_list : list string) (text_lower : string) : bool :=
  existsb (fun word => PyStr.contains word text_lower) words_list.

(** [sum(1 for word in words_list if word in text_lower)] *)
Definition count_in (words_list : list string) (text_lower : string) : Z :=
  Z.of_nat (length (List.filter (fun word => PyStr.contains word text_lower) words_list)).

(** The [for topic, words_list in keywords.items()] loop with its [break]. *)
Fixpoint topic_loop (rules : list (string * list string)) (text_lower : string)
         (analysis : LiveAnalysis) : LiveAnalysis :=
  match rules with
  | [] => analysis
  | (topic, words_list) :: rest =>
      if any_in words_list text_lower
      then set_current_topic topic analysis
      else topic_loop rest text_lower analysis
  end.

(** The body of [_update_live_analysis], on the [live_analysis] dictionary. *)
Definition update_analysis (analysis : LiveAnalysis) (new_text : string) : LiveAnalysis :=
  let words := PyStr.split new_text in
  let analysis := set_word_count (word_count analysis + Z.of_nat (length words)) analysis in
  let text_lower := PyStr.lower new_text in
  let analysis := topic_loop keywords text_lower analysis in
  let analysis :=
    if any_in action_indicators text_lower
    then set_action_items_detected (action_items_detected analysis + 1) analysis
    else analysis in
  let positive_count := count_in positive_words text_lower in
  let negative_count := count_in negative_words text_lower in
  if positive_count >? negative_count then set_sentiment "positive" analysis
  else if negative_count >? positive_count then set_sentiment "negative" analysis
  else set_sentiment "neutral" analysis.

(** The reading of "count the occurrences of the listed words" that counts
    every position at which a word starts, so that a repeated word counts
    as often as it is repeated. It is compared below with what
    [update_analysis] computes. *)
Fixpoint occurrences (needle hay : string) : Z :=
  (if PyStr.startswith needle hay then 1 else 0) +
  match hay with
  | EmptyString => 0
  | String _ hay' => occurrences needle hay'
  end.

Definition total_occurrences (words_list : list string) (text : string) : Z :=
  fold_right Z.add 0 (map (fun word => occurrences word text) words_list).

Definition sentiment_by_occurrences (new_text : string) : string :=
  let text_lower := PyStr.lower new_text in
  let positive_count := total_occurrences positive_words text_lower in
  let negative_count := total_occurrences negative_words text_lower in
  if positive_count >? negative_count then "positive"
  else if negative_count >? positive_count then "negative"
  else "neutral".

(** ** Exceptions, byte buffers and the session record *)

Inductive exn :=
| ValueError (msg : string)
| KeyError (key : string)
| Exception (msg : string).

(** [str(e)] *)
Definition str_exn (e : exn) : string :=
  match e with
  | ValueError msg => msg
  | KeyError key => "'" +:+ key +:+ "'"
  | Exception msg => msg
  end.

(** What a Python call does: it returns a value or raises. *)
Inductive outcome (A : Type) :=
| Return (a : A)
| Raise (e : exn).
Arguments Return {A} a.
Arguments Raise {A} e.

(** [io.BytesIO]: the bytes written so far and the stream position. *)
Record BytesIO := mkBytesIO {
  getvalue : list Byte.byte;
  tell : nat
}.

Definition BytesIO_new : BytesIO := mkBytesIO [] 0.

(** [b.write(data)]: overwrite from the position on, padding with zero
    bytes when the position is past the end. *)
Definition write (b : BytesIO) (data : list Byte.byte) : BytesIO :=
  let pos := tell b in
  let v := getvalue b in
  mkBytesIO (take pos v ++ replicate (pos - length v) Byte.x00 ++ data
             ++ drop (pos + length data) v)
            (pos + length data).

(** [b.seek(n)] *)
Definition seek (b : BytesIO) (n : nat) : BytesIO := mkBytesIO (getvalue b) n.

(** [b.read()]: everything from the position to the end. *)
Definition read (b : BytesIO) : list Byte.byte * BytesIO :=
  (drop (tell b) (getvalue b),
   mkBytesIO (getvalue b) (Nat.max (tell b) (length (getvalue b)))).

Definition Timestamp := string.

(** An entry of [session['audio_chunks']]. *)
Record Chunk := mkChunk {
  ck_timestamp : Timestamp;
  ck_size : Z
}.

(** An entry of [session['transcription_segments']]. *)
Record Segment := mkSegment {
  seg_timestamp : Timestamp;
  seg_text : string;
  seg_duration : Q
}.

(** The session dictionary built by [create_session]. *)
Record Session := mkSession {
  sess_id : string;
  created_at : Timestamp;
  audio_chunks : list Chunk;
  transcription_segments : list Segment;
  partial_transcriptions : list string;
  live_analysis : LiveAnalysis;
  audio_buffer : BytesIO;
  is_active : bool
}.

Definition set_audio_chunks (x : list Chunk) (s : Session) : Session :=
  mkSession (sess_id s) (created_at s) x (transcription_segments s)
            (partial_transcriptions s) (live_analysis s) (audio_buffer s) (is_active s).

Definition set_transcription_segments (x : list Segment) (s : Session) : Session :=
  mkSession (sess_id s) (created_at s) (audio_chunks s) x
            (partial_transcriptions s) (live_analysis s) (audio_buffer s) (is_active s).

Definition set_live_analysis (x : LiveAnalysis) (s : Session) : Session :=
  mkSession (sess_id s) (created_at s) (audio_chunks s) (transcription_segments s)
            (partial_transcriptions s) x (audio_buffer s) (is_active s).

Definition set_audio_buffer (x : BytesIO) (s : Session) : Session :=
  mkSession (sess_id s) (created_at s) (audio_chunks s) (transcription_segments s)
            (partial_transcriptions s) (live_analysis s) x (is_active s).

Definition set_is_active (x : bool) (s : Session) : Session :=
  mkSession (sess_id s) (created_at s) (audio_chunks s) (transcription_segments s)
            (partial_transcriptions s) (live_analysis s) (audio_buffer s) x.

(** [self.sample_rate] and [self.chunk_size], assigned once in [__init__]. *)
Definition sample_rate : Z := 16000.
Definition chunk_size : Z := 1024 * 16.

(** The flush threshold of [process_audio_chunk]: three seconds of 16-bit
    mono audio. *)
Definition flush_threshold : Z := sample_rate * 2 * 3.

(** [_update_live_analysis(session, new_text)] *)
Definition _update_live_analysis (session : Session) (new_text : string) : Session :=
  set_live_analysis (update_analysis (live_analysis session) new_text) session.

(** [sum(chunk['size'] for chunk in chunks)] *)
Definition total_size (chunks : list Chunk) : Z :=
  fold_right Z.add 0 (map ck_size chunks).

(** [n / (self.sample_rate * 2)] *)
Definition seconds_of_bytes (n : Z) : Q :=
  Qdiv (inject_Z n) (inject_Z (sample_rate * 2)).

Section Service.

(** The dictionary returned by [AnalysisService.analyze_meeting]; the
    session engine only passes it on. *)
Variable Analysis : Type.

(** What one method call reads from the outside world. *)
Record Env := mkEnv {
  (** [datetime.now().isoformat()] at the first reading of the call *)
  now : Timestamp;
  (** the reading made when a segment is built *)
  now_segment : Timestamp;
  (** [self.audio_service.transcribe_audio(temp_path)] on a WAV file
      holding the given frames *)
  transcribe_audio : list Byte.byte -> outcome string;
  (** [self.analysis_service.analyze_meeting(text)], which handles its
      own failures and answers with a fallback dictionary *)
  analyze_meeting : string -> Analysis
}.

(** The state of the service: the registry, the cleanup threads started
    by [end_session] that have not run yet (by session id, oldest
    first), and the texts sent to [analyze_meeting] so far. *)
Record State := mkState {
  active_sessions : gmap string Session;
  cleanup_threads : list string;
  analyze_calls : list string
}.

Definition set_active_sessions (m : gmap string Session) (st : State) : State :=
  mkState m (cleanup_threads st) (analyze_calls st).

(** Writing through the alias [session = self.active_sessions[session_id]]. *)
Definition store (session_id : string) (session : Session) (st : State) : State :=
  set_active_sessions (<[session_id := session]> (active_sessions st)) st.

(** The summary dictionary of [get_session_summary]. *)
Record SummaryDict := mkSummary {
  sum_session_id : string;
  sum_created_at : Timestamp;
  sum_ended_at : Timestamp;
  sum_total_segments : Z;
  sum_total_chunks : Z;
  sum_full_transcription : string;
  sum_live_analysis : LiveAnalysis;
  sum_final_analysis : option Analysis;
  sum_duration_seconds : Q
}.

(** The dictionaries the methods return. *)
Inductive Response :=
| ErrorDict (error : string)
| Buffering (session_id : string) (buffer_size : Z) (chunks_received : Z)
| Transcribed (session_id : string) (segment : Segment)
              (live : LiveAnalysis) (total_segments : Z)
| NoTranscription (session_id : string) (buffer_cleared : bool)
| Summary (summary : SummaryDict).

(** ['error' in response] *)
Definition has_error_key (r : Response) : bool :=
  match r with ErrorDict _ => true | _ => false end.

(** [try: ... except Exception as e: return {'error': str(e)}] *)
Definition try_except (c : outcome Response * State) : outcome Response * State :=
  match c with
  | (Raise e, st) => (Return (ErrorDict (str_exn e)), st)
  | (Return r, st) => (Return r, st)
  end.

Definition not_found (session_id : string) : exn :=
  ValueError ("Session " +:+ session_id +:+ " not found").

Definition new_session (session_id : string) (created : Timestamp) : Session :=
  mkSession session_id created [] [] []
            (mkLiveAnalysis 0 0 "Unknown" "neutral" 0) BytesIO_new true.

Definition create_session (st : State) (session_id : string) (env : Env)
  : outcome Session * State :=
  let session := new_session session_id (now env) in
  (Return session, store session_id session st).

(** [_transcribe_chunk]: any failure, and any falsy answer, is the empty
    string. *)
Definition _transcribe_chunk (env : Env) (audio_data : list Byte.byte) : string :=
  match transcribe_audio env audio_data with
  | Return transcription => if PyStr.truthy transcription then transcription else ""
  | Raise _ => ""
  end.

Definition _process_buffer_body (st : State) (session_id : string) (env : Env)
  : outcome Response * State :=
  match active_sessions st !! session_id with
  | None => (Raise (KeyError session_id), st)
  | Some session =>
      let '(audio_data, buffer) := read (seek (audio_buffer session) 0) in
      let session := set_audio_buffer buffer session in
      let transcription := _transcribe_chunk env audio_data in
      if PyStr.truthy transcription then
        let segment :=
          mkSegment (now_segment env) transcription
                    (seconds_of_bytes (Z.of_nat (length audio_data))) in
        let session :=
          set_transcription_segments (transcription_segments session ++ [segment])
                                     session in
        let session := _update_live_analysis session transcription in
        let session := set_audio_buffer BytesIO_new session in
        (Return (Transcribed session_id segment (live_analysis session)
                   (Z.of_nat (length (transcription_segments session)))),
         store session_id session st)
      else
        (Return (NoTranscription session_id true), store session_id session st)
  end.

Definition _process_buffer (st : State) (session_id : string) (env : Env)
  : outcome Response * State :=
  try_except (_process_buffer_body st session_id env).

Definition process_audio_chunk_body (st : State) (session_id : string)
           (audio_data : list Byte.byte) (env : Env) : outcome Response * State :=
  match active_sessions st !! session_id with
  | None => (Raise (not_found session_id), st)
  | Some session =>
      let session := set_audio_buffer (write (audio_buffer session) audio_data) session in
      let session :=
        set_audio_chunks
          (audio_chunks session ++ [mkChunk (now env) (Z.of_nat (length audio_data))])
          session in
      let st := store session_id session st in
      let buffer_size := Z.of_nat (tell (audio_buffer session)) in
      if buffer_size >=? sample_rate * 2 * 3 then _process_buffer st session_id env
      else (Return (Buffering session_id buffer_size
                      (Z.of_nat (length (audio_chunks session)))), st)
  end.

Definition process_audio_chunk (st : State) (session_id : string)
           (audio_data : list Byte.byte) (env : Env) : outcome Response * State :=
  try_except (process_audio_chunk_body st session_id audio_data env).

Definition get_session_summary_body (st : State) (session_id : string) (env : Env)
  : outcome Response * State :=
  match active_sessions st !! session_id with
  | None => (Raise (not_found session_id), st)
  | Some session =>
      let full_transcription :=
        PyStr.join " " (map seg_text (transcription_segments session)) in
      let '(final_analysis, st) :=
        if PyStr.truthy (PyStr.strip full_transcription)
        then (Some (analyze_meeting env full_transcription),
              mkState (active_sessions st) (cleanup_threads st)
                      (analyze_calls st ++ [full_transcription]))
        else (None, st) in
      (Return (Summary
         (mkSummary session_id (created_at session) (now env)
            (Z.of_nat (length (transcription_segments session)))
            (Z.of_nat (length (audio_chunks session)))
            full_transcription (live_analysis session) final_analysis
            (seconds_of_bytes (total_size (audio_chunks session))))),
       st)
  end.

Definition get_session_summary (st : State) (session_id : string) (env : Env)
  : outcome Response * State :=
  try_except (get_session_summary_body st session_id env).

(** [threading.Thread(target=cleanup, daemon=True).start()] *)
Definition start_cleanup_thread (session_id : string) (st : State) : State :=
  mkState (active_sessions st) (cleanup_threads st ++ [session_id]) (analyze_calls st).

Definition end_session_body (st : State) (session_id : string) (env : Env)
  : outcome Response * State :=
  match active_sessions st !! session_id with
  | None => (Raise (not_found session_id), st)
  | Some _ =>
      match get_session_summary st session_id env with
      | (Raise e, st) => (Raise e, st)
      | (Return summary, st) =>
          match active_sessions st !! session_id with
          | None => (Raise (KeyError session_id), st)
          | Some session =>
              let st := store session_id (set_is_active false session) st in
              let st := start_cleanup_thread session_id st in
              (Return summary, st)
          end
      end
  end.

Definition end_session (st : State) (session_id : string) (env : Env)
  : outcome Response * State :=
  try_except (end_session_body st session_id env).

(** The body of the [cleanup] closure once its sleep is over. *)
Definition cleanup (session_id : string) (st : State) : State :=
  match active_sessions st !! session_id with
  | Some _ => set_active_sessions (delete session_id (active_sessions st)) st
  | None => st
  end.

(** The oldest pending cleanup thread wakes up and runs. *)
Definition run_cleanup_thread (st : State) : State :=
  match cleanup_threads st with
  | [] => st
  | session_id :: rest =>
      cleanup session_id (mkState (active_sessions st) rest (analyze_calls st))
  end.

(** Feeding a list of chunks, each with the environment of its call. *)
Fixpoint process_chunks (st : State) (session_id : string)
         (calls : list (list Byte.byte * Env)) : State :=
  match calls with
  | [] => st
  | (audio_data, env) :: rest =>
      process_chunks (process_audio_chunk st session_id audio_data env).2
                     session_id rest
  end.

End Service.

Arguments Env Analysis : clear implicits.
Arguments mkEnv {Analysis} now now_segment transcribe_audio analyze_meeting.
Arguments now {Analysis} e.
Arguments now_segment {Analysis} e.
Arguments transcribe_audio {Analysis} e audio_data.
Arguments analyze_meeting {Analysis} e text.
Arguments SummaryDict Analysis : clear implicits.
Arguments Response Analysis : clear implicits.
Arguments ErrorDict {Analysis} error.
Arguments Buffering {Analysis} session_id buffer_size chunks_received.
Arguments Transcribed {Analysis} session_id segment live total_segments.
Arguments NoTranscription {Analysis} session_id buffer_cleared.
Arguments Summary {Analysis} summary.
Arguments mkSummary {Analysis}.
Arguments sum_session_id {Analysis} s.
Arguments sum_created_at {Analysis} s.
Arguments sum_ended_at {Analysis} s.
Arguments sum_total_segments {Analysis} s.
Arguments sum_total_chunks {Analysis} s.
Arguments sum_full_transcription {Analysis} s.
Arguments sum_live_analysis {Analysis} s.
Arguments sum_final_analysis {Analysis} s.
Arguments sum_duration_seconds {Analysis} s.
Arguments has_error_key {Analysis} r.
Arguments try_except {Analysis} c.
Arguments create_session {Analysis} st session_id env.
Arguments _transcribe_chunk {Analysis} env audio_data.
Arguments _process_buffer_body {Analysis} st session_id env.
Arguments _process_buffer {Analysis} st session_id env.
Arguments process_audio_chunk_body {Analysis} st session_id audio_data env.
Arguments process_audio_chunk {Analysis} st session_id audio_data env.
Arguments get_session_summary_body {Analysis} st session_id env.
Arguments get_session_summary {Analysis} st session_id env.
Arguments end_session_body {Analysis} st session_id env.
Arguments end_session {Analysis} st session_id env.
Arguments process_chunks {Analysis} st session_id calls.

(** ** One call on one session

    The methods look the session up, work on it and write it back; the
    functions of this section are that work, on the session alone. They
    are used to state what a call does to the session it finds. *)

Section SessionLevel.
Context {Analysis : Type}.
Implicit Types (st : State) (env : Env Analysis) (s : Session).

(** The session after the write and the append of [process_audio_chunk]. *)
Definition with_chunk s (audio_data : list Byte.byte) env : Session :=
  set_audio_chunks
    (audio_chunks s ++ [mkChunk (now env) (Z.of_nat (length audio_data))])
    (set_audio_buffer (write (audio_buffer s) audio_data) s).

(** What [_process_buffer] answers and leaves in the session it finds. *)
Definition flush_result (session_id : string) s env : Response Analysis * Session :=
  let '(audio_data, buffer) := read (seek (audio_buffer s) 0) in
  let s2 := set_audio_buffer buffer s in
  let transcription := _transcribe_chunk env audio_data in
  if PyStr.truthy transcription then
    let segment :=
      mkSegment (now_segment env) transcription
                (seconds_of_bytes (Z.of_nat (length audio_data))) in
    let s3 :=
      set_audio_buffer BytesIO_new
        (_update_live_analysis
           (set_transcription_segments (transcription_segments s2 ++ [segment]) s2)
           transcription) in
    (Transcribed session_id segment (live_analysis s3)
       (Z.of_nat (length (transcription_segments s3))), s3)
  else (NoTranscription session_id true, s2).

(** What [process_audio_chunk] answers and leaves in the session it finds. *)
Definition chunk_result (session_id : string) s (audio_data : list Byte.byte) env
  : Response Analysis * Session :=
  let s1 := with_chunk s audio_data env in
  let buffer_size := Z.of_nat (tell (audio_buffer s1)) in
  if buffer_size >=? flush_threshold then flush_result session_id s1 env
  else (Buffering session_id buffer_size (Z.of_nat (length (audio_chunks s1))), s1).

(** The stream position is at the end of what was written. This holds of
    a new buffer and is kept by every call. *)
Definition at_end (b : BytesIO) : Prop := tell b = length (getvalue b).

(** [" ".join(segment['text'] for segment in ...)] *)
Definition full_text s : string :=
  PyStr.join " " (map seg_text (transcription_segments s)).

(** The test [if full_transcription.strip()] that guards [analyze_meeting]. *)
Definition analysed s : bool := PyStr.truthy (PyStr.strip (full_text s)).

(** The dictionary [get_session_summary] builds from the session it finds. *)
Definition summary_of (session_id : string) s env : SummaryDict Analysis :=
  mkSummary session_id (created_at s) (now env)
    (Z.of_nat (length (transcription_segments s)))
    (Z.of_nat (length (audio_chunks s)))
    (full_text s) (live_analysis s)
    (if analysed s then Some (analyze_meeting env (full_text s)) else None)
    (seconds_of_bytes (total_size (audio_chunks s))).

(** The call of [analyze_meeting] made for that summary, if any. *)
Definition log_call s st : State :=
  mkState (active_sessions st) (cleanup_threads st)
          (analyze_calls st ++ (if analysed s then [full_text s] else [])).

(** The bytes handed to [process_audio_chunk] over a list of calls. *)
Definition bytes_received (calls : list (list Byte.byte * Env Analysis)) : Z :=
  fold_right Z.add 0 (map (fun call => Z.of_nat (length call.1)) calls).

Definition chunk_of_call (call : list Byte.byte * Env Analysis) : Chunk :=
  mkChunk (now call.2) (Z.of_nat (length call.1)).

End SessionLevel.

(** The sum of the durations of the recorded segments. *)
Definition segments_duration (s : Session) : Q :=
  fold_right Qplus 0%Q (map seg_duration (transcription_segments s)).

(** ** Concrete sessions used in the examples *)

(** A world in which the transcription call fails (it raises) and the
    analysis answers with a fixed text. *)
Definition env_failing : Env string :=
  mkEnv "2024-05-01T10:00:00" "2024-05-01T10:00:03"
        (fun _ => Raise (Exception "Audio transcription failed"))
        (fun _ => "analysis").

(** A world in which every transcription is "we plan the roadmap". *)
Definition env_talking : Env string :=
  mkEnv "2024-05-01T10:00:05" "2024-05-01T10:00:08"
        (fun _ => Return "we plan the roadmap")
        (fun text => "analysis of: " +:+ text).

Definition empty_service : State := mkState ∅ [] [].

(** The service after [create_session("s1")]. *)
Definition service_s1 : State := (create_session empty_service "s1" env_failing).2.

(** A session that has received one chunk of two bytes and holds one
    transcribed segment. *)
Definition session_with_history : Session :=
  mkSession "s1" "2024-05-01T10:00:00"
    [mkChunk "2024-05-01T10:00:01" 2]
    [mkSegment "2024-05-01T10:00:02" "we plan the roadmap" (seconds_of_bytes 2)]
    []
    (mkLiveAnalysis 4 0 "planning" "neutral" 0)
    (mkBytesIO [Byte.x01; Byte.x02] 2)
    true.

Definition service_with_history : State :=
  mkState {[ "s1" := session_with_history ]} [] [].

(** The service after [create_session("s1")] and [end_session("s1")]. *)
Definition service_ended : State := (end_session service_s1 "s1" env_failing).2.

(** Three seconds of silence: 96000 zero bytes. *)
Definition three_seconds : list Byte.byte := replicate (Z.to_nat flush_threshold) Byte.x00.

(** A run in which the reported duration exceeds the durations of the
    recorded segments: the session [s1] receives the one chunk
    [audio_data] in the world [env], records no segment, and its summary
    reports a positive duration. *)
Definition untranscribed_bytes_counted (audio_data : list Byte.byte) (env : Env string)
  : Prop :=
  let st := process_chunks service_s1 "s1" [(audio_data, env)] in
  exists s summary,
    active_sessions st !! "s1" = Some s
    /\ transcription_segments s = []
    /\ (get_session_summary st "s1" env).1 = Return (Summary summary)
    /\ (segments_duration s < sum_duration_seconds summary)%Q.

(** ** The statements that are compared with the code *)

(** An operation has failed when it raised or answered with an ['error'] key. *)
Definition failed {Analysis : Type} (o : outcome (Response Analysis)) : Prop :=
  match o with
  | Raise _ => True
  | Return r => has_error_key r = true
  end.

(** The statement of C2: an inactive session refuses the chunk and keeps
    its state. *)
Definition inactive_session_refuses {Analysis : Type} (st : State) (session_id : string)
           (audio_data : list Byte.byte) (env : Env Analysis) : Prop :=
  forall s, active_sessions st !! session_id = Some s -> is_active s = false ->
    failed (process_audio_chunk st session_id audio_data env).1
    /\ (process_audio_chunk st session_id audio_data env).2 = st.

(** The statement of C3: creating an id that exists fails and keeps the
    existing session. *)
Definition create_refuses_duplicate {Analysis : Type} (st : State) (session_id : string)
           (env : Env Analysis) : Prop :=
  is_Some (active_sessions st !! session_id) ->
  (exists e, (create_session st session_id env).1 = Raise e)
  /\ active_sessions (create_session st session_id env).2 !! session_id
     = active_sessions st !! session_id.

(** The statement of C4: the second [end_session] answers as the first
    did and starts no second cleanup thread. *)
Definition second_end_is_silent {Analysis : Type} (st : State) (session_id : string)
           (env : Env Analysis) : Prop :=
  let first := end_session st session_id env in
  let second := end_session first.2 session_id env in
  second.1 = first.1 /\ cleanup_threads second.2 = cleanup_threads first.2.

(** The statement of C5 with occurrences counted by position. *)
Definition sentiment_counts_occurrences (session : Session) (new_text : string) : Prop :=
  sentiment (live_analysis (_update_live_analysis session new_text))
  = sentiment_by_occurrences new_text.

(** ** The rest of the service: the active list, cleanup threads, runs *)

(** A text without any whitespace character. *)
Definition no_space (w : string) : Prop :=
  Forall (fun c => PyStr.isspace c = false) (list_ascii_of_string w).

(** [get_active_sessions]: the ids whose session has [is_active] set. The
    Python list follows the insertion order of the dictionary; the finite
    map keeps no such order, so only membership is meaningful here. *)
Definition get_active_sessions (st : State) : list string :=
  (map_to_list (filter (fun entry : string * Session => is_active entry.2 = true)
                       (active_sessions st))).*1.

(** The pending cleanup thread number [i] wakes up and runs. The threads
    all sleep for the same time, but nothing orders their wake-ups. *)
Definition wake_cleanup_thread (i : nat) (st : State) : State :=
  match cleanup_threads st !! i with
  | None => st
  | Some session_id =>
      cleanup session_id
              (mkState (active_sessions st) (delete i (cleanup_threads st))
                       (analyze_calls st))
  end.

(** The seconds of audio still in the buffer. *)
Definition pending_seconds (s : Session) : Q :=
  seconds_of_bytes (Z.of_nat (length (getvalue (audio_buffer s)))).

Section Runs.
Context {Analysis : Type}.

(** One thing that happens to the service: a method is called, or a
    cleanup thread wakes up. *)
Inductive Call :=
| CallCreate (session_id : string)
| CallChunk (session_id : string) (audio_data : list Byte.byte)
| CallSummary (session_id : string)
| CallEnd (session_id : string)
| ThreadWakes (i : nat).

Definition run_call (st : State) (c : Call) (env : Env Analysis) : State :=
  match c with
  | CallCreate session_id => (create_session st session_id env).2
  | CallChunk session_id audio_data =>
      (process_audio_chunk st session_id audio_data env).2
  | CallSummary session_id => (get_session_summary st session_id env).2
  | CallEnd session_id => (end_session st session_id env).2
  | ThreadWakes i => wake_cleanup_thread i st
  end.

(** The answers of [process_audio_chunk] over a list of calls, in order. *)
Fixpoint chunk_answers (st : State) (session_id : string)
         (calls : list (list Byte.byte * Env Analysis))
  : list (outcome (Response Analysis)) :=
  match calls with
  | [] => []
  | (audio_data, env) :: rest =>
      let run := process_audio_chunk st session_id audio_data env in
      run.1 :: chunk_answers run.2 session_id rest
  end.

(** The states the service can be in: it starts with no session, and any
    call in any world may follow. *)
Inductive reachable : State -> Prop :=
| reachable_init : reachable (mkState ∅ [] [])
| reachable_call st c env : reachable st -> reachable (run_call st c env).

End Runs.

(** What every registered session of a reachable state satisfies. *)
Record session_invariant (s : Session) : Prop := mkSessionInvariant {
  inv_at_end : at_end (audio_buffer s);
  inv_duration :
    (seconds_of_bytes (total_size (audio_chunks s))
     == segments_duration s + pending_seconds s)%Q;
  inv_segments : (length (transcription_segments s) <= length (audio_chunks s))%nat;
  inv_texts : Forall (fun segment => seg_text segment <> "") (transcription_segments s);
  inv_words :
    word_count (live_analysis s) = Z.of_nat (length (PyStr.split (full_text s)));
  inv_speakers : speakers_detected (live_analysis s) = 0;
  inv_sentiment : sentiment (live_analysis s) ∈ ["neutral"; "positive"; "negative"];
  inv_topic :
    current_topic (live_analysis s)
    ∈ ["Unknown"; "planning"; "technical"; "business"; "meeting"];
  inv_action_items :
    0 <= action_items_detected (live_analysis s)
      <= Z.of_nat (length (transcription_segments s))
}.

(** ** The WebSocket handler

    [RealTimeWebSocketHandler] keeps one service and the dictionary
    [clients] from connections to session ids. A connection is known by
    a number. A message is the dictionary decoded from JSON, of which the
    handler reads three keys. The handlers are coroutines that never
    wait inside one message, so a message is handled in one step. *)

Definition Websocket := nat.

(** The keys of a message that the handler reads; [None] is a missing key. *)
Record Message := mkMessage {
  msg_type : option string;
  msg_session_id : option string;
  msg_audio_data : option string
}.

(** [x if x else None] for an optional string: [None] and the empty
    string are both false in a test. *)
Definition truthy_id (x : option string) : option string :=
  match x with
  | Some session_id => if PyStr.is_empty session_id then None else Some session_id
  | None => None
  end.

(** [a or b] on optional strings. *)
Definition or_else (a b : option string) : option string :=
  match truthy_id a with
  | Some x => Some x
  | None => b
  end.

(** [f"{x}"] for an optional string. *)
Definition format_option (x : option string) : string :=
  match x with Some v => v | None => "None" end.

Section Handler.
Context {Analysis : Type}.

(** [base64.b64decode] of the standard library: it returns the bytes or
    raises. *)
Variable b64decode : string -> outcome (list Byte.byte).

Record Handler := mkHandler {
  transcription_service : State;
  clients : gmap Websocket string
}.

(** The dictionaries sent back on the connection. *)
Inductive Reply :=
| SessionStarted (session_id : string) (created : Timestamp)
| Typed (type : string) (r : Response Analysis)
| HandlerError (error : string).

(** What a message handler reads from the outside world: the world of the
    service call and the id made from the clock by [start_session]. *)
Record HandlerEnv := mkHandlerEnv {
  service_env : Env Analysis;
  default_id : string
}.

(** [start_session(websocket, data)] *)
Definition handler_start_session (h : Handler) (websocket : Websocket)
           (data : Message) (henv : HandlerEnv) : Reply * Handler :=
  let session_id :=
    match msg_session_id data with
    | Some given => given
    | None => default_id henv
    end in
  match create_session (transcription_service h) session_id (service_env henv) with
  | (Return session, st) =>
      (SessionStarted session_id (created_at session),
       mkHandler st (<[websocket := session_id]> (clients h)))
  | (Raise e, st) =>
      (HandlerError ("Failed to start session: " +:+ str_exn e),
       mkHandler st (clients h))
  end.

(** [process_audio(websocket, data)] *)
Definition handler_process_audio (h : Handler) (websocket : Websocket)
           (data : Message) (henv : HandlerEnv) : Reply * Handler :=
  match truthy_id (clients h !! websocket) with
  | None => (HandlerError "No active session", h)
  | Some session_id =>
      match b64decode (default "" (msg_audio_data data)) with
      | Raise e => (HandlerError ("Failed to process audio: " +:+ str_exn e), h)
      | Return audio_data =>
          match process_audio_chunk (transcription_service h) session_id audio_data
                                    (service_env henv) with
          | (Return result, st) =>
              (Typed "transcription_update" result, mkHandler st (clients h))
          | (Raise e, st) =>
              (HandlerError ("Failed to process audio: " +:+ str_exn e),
               mkHandler st (clients h))
          end
      end
  end.

(** [end_session(websocket, data)] of the handler *)
Definition handler_end_session (h : Handler) (websocket : Websocket)
           (data : Message) (henv : HandlerEnv) : Reply * Handler :=
  match truthy_id (clients h !! websocket) with
  | None => (HandlerError "No active session", h)
  | Some session_id =>
      match end_session (transcription_service h) session_id (service_env henv) with
      | (Return summary, st) => (Typed "session_ended" summary, mkHandler st (clients h))
      | (Raise e, st) =>
          (HandlerError ("Failed to end session: " +:+ str_exn e),
           mkHandler st (clients h))
      end
  end.

(** [get_summary(websocket, data)] *)
Definition handler_get_summary (h : Handler) (websocket : Websocket)
           (data : Message) (henv : HandlerEnv) : Reply * Handler :=
  match truthy_id (or_else (clients h !! websocket) (msg_session_id data)) with
  | None => (HandlerError "No session specified", h)
  | Some session_id =>
      match get_session_summary (transcription_service h) session_id
                                (service_env henv) with
      | (Return summary, st) =>
          (Typed "session_summary" summary, mkHandler st (clients h))
      | (Raise e, st) =>
          (HandlerError ("Failed to get summary: " +:+ str_exn e),
           mkHandler st (clients h))
      end
  end.

(** [process_message(websocket, data)] *)
Definition process_message (h : Handler) (websocket : Websocket)
           (data : Message) (henv : HandlerEnv) : Reply * Handler :=
  let message_type := msg_type data in
  if decide (message_type = Some "start_session")
  then handler_start_session h websocket data henv
  else if decide (message_type = Some "audio_chunk")
  then handler_process_audio h websocket data henv
  else if decide (message_type = Some "end_session")
  then handler_end_session h websocket data henv
  else if decide (message_type = Some "get_summary")
  then handler_get_summary h websocket data henv
  else (HandlerError ("Unknown message type: " +:+ format_option message_type), h).

(** [cleanup_client(websocket)] *)
Definition cleanup_client (h : Handler) (websocket : Websocket)
           (env : Env Analysis) : Handler :=
  match truthy_id (clients h !! websocket) with
  | None => h
  | Some session_id =>
      mkHandler (end_session (transcription_service h) session_id env).2
                (delete websocket (clients h))
  end.

(** The loop of [handle_client] over the frames of one connection; a
    frame that is not JSON is [None]. *)
Fixpoint handle_messages (h : Handler) (websocket : Websocket)
         (frames : list (option Message * HandlerEnv)) : list Reply * Handler :=
  match frames with
  | [] => ([], h)
  | (frame, henv) :: rest =>
      let '(reply, h) :=
        match frame with
        | None => (HandlerError "Invalid JSON message", h)
        | Some data => process_message h websocket data henv
        end in
      let '(replies, h) := handle_messages h websocket rest in
      (reply :: replies, h)
  end.

(** [handle_client(websocket, path)]: the loop, then [cleanup_client] in
    the [finally] clause, when the connection closes. *)
Definition handle_client (h : Handler) (websocket : Websocket)
           (frames : list (option Message * HandlerEnv)) (closing : Env Analysis)
  : list Reply * Handler :=
  let '(replies, h) := handle_messages h websocket frames in
  (replies, cleanup_client h websocket closing).

End Handler.

Arguments Handler : clear implicits.
Arguments mkHandler : clear implicits.
Arguments Reply Analysis : clear implicits.
Arguments HandlerEnv Analysis : clear implicits.

(** ** The analysis service called by the summary

    [AnalysisService.analyze_meeting] of [services/analysis_service.py].
    The chat completion call and [json.loads] are taken as given: the
    first returns the arguments of the first tool call of the answer
    ([None] when the answer has no tool call) or raises, the second
    returns the decoded value or raises. *)

(** The values [json.loads] builds. The keys of a dictionary are distinct. *)
#[warnings="-register-all"] Inductive Json :=
| JNull
| JBool (b : bool)
| JInt (z : Z)
| JFloat (q : Q)
| JStr (text : string)
| JList (items : list Json)
| JDict (entries : list (string * Json)).

(** [_fallback_analysis(transcript)] *)
Definition _fallback_analysis (transcript : string) : Json :=
  JDict
    [ ("summary",
       JStr "Meeting analysis unavailable due to processing error. Please try again.");
      ("key_decisions", JList []);
      ("action_items", JList []);
      ("participants", JList []);
      ("topics_discussed", JList [JStr "Unable to process"]);
      ("meeting_effectiveness_score", JInt 5);
      ("recommendations", JList [JStr "Review transcript manually"; JStr "Retry analysis"]) ].

(** [text[:n]] *)
Fixpoint str_take (n : nat) (text : string) : string :=
  match n, text with
  | O, _ => EmptyString
  | S _, EmptyString => EmptyString
  | S n', String c rest => String c (str_take n' rest)
  end.

Definition newline : string := String "010" EmptyString.

(** The content of the user message sent to the model. *)
Definition user_content (transcript : string) : string :=
  "Analyze this meeting transcript and extract key insights:" +:+ newline +:+ newline
  +:+ str_take 4000 transcript.

Section AnalysisService.

Variable chat_completion : string -> outcome (option string).
Variable json_loads : string -> outcome Json.

(** [analyze_meeting(transcript)]: the result, and the user messages sent
    to the model during the call. *)
Definition service_analyze_meeting (transcript : string) : Json * list string :=
  if PyStr.is_empty transcript || PyStr.is_empty (PyStr.strip transcript)
  then (_fallback_analysis transcript, [])
  else
    let content := user_content transcript in
    match chat_completion content with
    | Raise _ => (_fallback_analysis transcript, [content])
    | Return None => (_fallback_analysis transcript, [content])
    | Return (Some arguments) =>
        match json_loads arguments with
        | Return insights => (insights, [content])
        | Raise _ => (_fallback_analysis transcript, [content])
        end
    end.

End AnalysisService.

(** ** The HTTP routes of the real-time service

    The four [/api/realtime/...] routes of [app.py]. A response is its
    status code and the dictionary handed to [jsonify]. The meetings
    file [data/meetings.json] is the list of its records; reading and
    writing it are taken to succeed. *)

(** The truth value of a JSON value in a test. *)
Definition json_truthy (j : Json) : bool :=
  match j with
  | JNull => false
  | JBool b => b
  | JInt z => negb (Z.eqb z 0)
  | JFloat q => negb (Qeq_bool q 0)
  | JStr text => negb (PyStr.is_empty text)
  | JList items => match items with [] => false | _ => true end
  | JDict entries => match entries with [] => false | _ => true end
  end.

(** [type(j).__name__] *)
Definition json_type_name (j : Json) : string :=
  match j with
  | JNull => "NoneType"
  | JBool _ => "bool"
  | JInt _ => "int"
  | JFloat _ => "float"
  | JStr _ => "str"
  | JList _ => "list"
  | JDict _ => "dict"
  end.

Fixpoint assoc_get (key : string) (entries : list (string * Json)) : option Json :=
  match entries with
  | [] => None
  | (k, v) :: rest => if decide (k = key) then Some v else assoc_get key rest
  end.

(** [j.get(key)]: only a dictionary has the method. *)
Definition json_get (j : Json) (key : string) : outcome (option Json) :=
  match j with
  | JDict entries => Return (assoc_get key entries)
  | _ => Raise (Exception ("'" +:+ json_type_name j
                           +:+ "' object has no attribute 'get'"))
  end.

(** The [realtime_data] of a stored meeting. *)
Record RealtimeData := mkRealtimeData {
  rd_session_id : string;
  rd_duration_seconds : Q;
  rd_segments_count : Z;
  rd_live_analysis : LiveAnalysis
}.

(** A record of the meetings file written by [end_realtime_session]. *)
Record Meeting (Embedding : Type) := mkMeeting {
  meeting_id : string;
  meeting_filename : string;
  meeting_timestamp : Timestamp;
  meeting_transcription : string;
  meeting_analysis : option Json;
  meeting_realtime_data : RealtimeData;
  meeting_embedding : option Embedding;
  meeting_visual_url : option string
}.
Arguments mkMeeting {Embedding}.
Arguments meeting_id {Embedding} m.
Arguments meeting_filename {Embedding} m.
Arguments meeting_timestamp {Embedding} m.
Arguments meeting_transcription {Embedding} m.
Arguments meeting_analysis {Embedding} m.
Arguments meeting_realtime_data {Embedding} m.
Arguments meeting_embedding {Embedding} m.
Arguments meeting_visual_url {Embedding} m.

(** The JSON body of a request, as far as the routes read it. *)
Record RequestBody := mkRequestBody {
  req_session_id : option string;
  req_audio_data : option string
}.

(** The dictionaries the routes hand to [jsonify]: [Failure] is
    [{'success': False, 'error': ...}]; the others are
    [{'success': True, ...}] with the key [session], [result], [summary]
    or [active_sessions]. *)
Inductive HttpBody :=
| Failure (error : string)
| StartOk (session : string)
| ResultOk (result : Response Json)
| SummaryOk (summary : Response Json)
| SessionsOk (active : list string).

Record HttpResponse := mkHttpResponse {
  status : Z;
  body : HttpBody
}.

Definition not_available : HttpResponse :=
  mkHttpResponse 501
    (Failure "Real-time transcription not available. Please install websockets.").

Section Routes.

Variable Embedding : Type.

(** [base64.b64decode] *)
Variable b64decode : string -> outcome (list Byte.byte).

(** [jsonify] on the session dictionary returned by [create_session]:
    the JSON text, or the error raised for a value that has no JSON form. *)
Variable jsonify_session : Session -> outcome string.

(** The module state of [app.py]: the real-time service, absent when the
    import failed, and the meetings file. *)
Record App := mkApp {
  realtime_service : option State;
  meetings : list (Meeting Embedding)
}.

(** What a route reads from the outside world. *)
Record RouteEnv := mkRouteEnv {
  route_env : Env Json;
  route_default_id : string;
  (** [search_service.create_embedding(text)]: the vector, [None] for an
      empty one *)
  create_embedding : string -> outcome (option Embedding);
  (** [visual_service.generate_visual_summary(summary)]: the URL, [None]
      for an empty one *)
  generate_visual_summary : Json -> outcome (option string)
}.

Definition error_500 (e : exn) : HttpResponse := mkHttpResponse 500 (Failure (str_exn e)).

(** [start_realtime_session()]; [request_json] is what [request.get_json()]
    does. *)
Definition start_realtime_session (app : App) (request_json : outcome RequestBody)
           (renv : RouteEnv) : HttpResponse * App :=
  match realtime_service app with
  | None => (not_available, app)
  | Some st =>
      match request_json with
      | Raise e => (error_500 e, app)
      | Return data =>
          let session_id :=
            match req_session_id data with
            | Some given => given
            | None => route_default_id renv
            end in
          match create_session st session_id (route_env renv) with
          | (Raise e, st) => (error_500 e, mkApp (Some st) (meetings app))
          | (Return session, st) =>
              let app := mkApp (Some st) (meetings app) in
              match jsonify_session session with
              | Raise e => (error_500 e, app)
              | Return text => (mkHttpResponse 200 (StartOk text), app)
              end
          end
      end
  end.

(** [process_realtime_audio()] *)
Definition process_realtime_audio (app : App) (request_json : outcome RequestBody)
           (renv : RouteEnv) : HttpResponse * App :=
  match realtime_service app with
  | None => (not_available, app)
  | Some st =>
      match request_json with
      | Raise e => (error_500 e, app)
      | Return data =>
          match truthy_id (req_session_id data), truthy_id (req_audio_data data) with
          | Some session_id, Some audio_data =>
              match b64decode audio_data with
              | Raise e => (error_500 e, app)
              | Return audio_bytes =>
                  match process_audio_chunk st session_id audio_bytes (route_env renv) with
                  | (Raise e, st) => (error_500 e, mkApp (Some st) (meetings app))
                  | (Return result, st) =>
                      (mkHttpResponse 200 (ResultOk result),
                       mkApp (Some st) (meetings app))
                  end
              end
          | _, _ =>
              (mkHttpResponse 400 (Failure "Missing session_id or audio_data"), app)
          end
      end
  end.

(** The part of [end_realtime_session] that stores the meeting: the
    meetings to write, or the exception that leaves the file as it was. *)
Definition store_meeting (stored : list (Meeting Embedding)) (session_id : string)
           (summary : SummaryDict Json) (renv : RouteEnv)
  : outcome (list (Meeting Embedding)) :=
  let transcription := sum_full_transcription summary in
  let analysis := sum_final_analysis summary in
  let new_meeting embedding visual_url :=
    mkMeeting ("realtime_" +:+ session_id) ("realtime_session_" +:+ session_id)
              (sum_created_at summary) transcription analysis
              (mkRealtimeData session_id (sum_duration_seconds summary)
                              (sum_total_segments summary) (sum_live_analysis summary))
              embedding visual_url in
  let with_embedding (k : option Embedding -> outcome (list (Meeting Embedding))) :=
    if PyStr.truthy transcription then
      match create_embedding renv transcription with
      | Raise e => Raise e
      | Return embedding => k embedding
      end
    else k None in
  with_embedding (fun embedding =>
    let finish visual_url := Return (stored ++ [new_meeting embedding visual_url]) in
    match analysis with
    | None => finish None
    | Some a =>
        if json_truthy a then
          match json_get a "summary" with
          | Raise e => Raise e
          | Return None => finish None
          | Return (Some summary_text) =>
              if json_truthy summary_text then
                match generate_visual_summary renv summary_text with
                | Raise e => Raise e
                | Return visual_url => finish visual_url
                end
              else finish None
          end
        else finish None
    end).

(** [end_realtime_session(session_id)] *)
Definition end_realtime_session (app : App) (session_id : string) (renv : RouteEnv)
  : HttpResponse * App :=
  match realtime_service app with
  | None => (not_available, app)
  | Some st =>
      match end_session st session_id (route_env renv) with
      | (Raise e, st) => (error_500 e, mkApp (Some st) (meetings app))
      | (Return summary, st) =>
          let ok stored := (mkHttpResponse 200 (SummaryOk summary), mkApp (Some st) stored) in
          match summary with
          | Summary dict =>
              if PyStr.truthy (PyStr.strip (sum_full_transcription dict)) then
                match store_meeting (meetings app) session_id dict renv with
                | Raise e => (error_500 e, mkApp (Some st) (meetings app))
                | Return stored => ok stored
                end
              else ok (meetings app)
          | _ => ok (meetings app)
          end
      end
  end.

(** [get_active_realtime_sessions()] *)
Definition get_active_realtime_sessions (app : App) : HttpResponse :=
  match realtime_service app with
  | None => not_available
  | Some st => mkHttpResponse 200 (SessionsOk (get_active_sessions st))
  end.

End Routes.

Arguments mkApp {Embedding}.
Arguments realtime_service {Embedding} a.
Arguments meetings {Embedding} a.
Arguments mkRouteEnv {Embedding}.
Arguments route_env {Embedding} r.
Arguments route_default_id {Embedding} r.
Arguments create_embedding {Embedding} r text.
Arguments generate_visual_summary {Embedding} r summary.
Arguments start_realtime_session {Embedding}.
Arguments process_realtime_audio {Embedding}.
Arguments store_meeting {Embedding}.
Arguments end_realtime_session {Embedding}.
Arguments get_active_realtime_sessions {Embedding}.

(** ** Concrete inputs for the handler, the analysis service and the routes *)

(** The service after [create_session("s1")] and one chunk of two bytes. *)
Definition service_one_chunk : State :=
  process_chunks service_s1 "s1" [([Byte.x00; Byte.x00], env_talking)].

(** A decoder that answers two zero bytes for every text. *)
Definition decode_two_bytes (text : string) : outcome (list Byte.byte) :=
  Return [Byte.x00; Byte.x00].

(** One connection, number 1, associated with the session [s1]. *)
Definition handler_s1 : Handler := mkHandler service_s1 {[ 1%nat := "s1" ]}.

(** A handler with no connection. *)
Definition handler_idle : Handler := mkHandler service_s1 ∅.

Definition handler_env : HandlerEnv string := mkHandlerEnv env_talking "session_0".

(** A model that answers without a tool call, and a decoder that fails. *)
Definition chat_without_tool_call (content : string) : outcome (option string) :=
  Return None.

Definition loads_failing (text : string) : outcome Json :=
  Raise (Exception "Expecting value").

(** A world for the routes: the transcription fails and the analysis is
    the fallback. *)
Definition env_json : Env Json :=
  mkEnv "2024-05-01T11:00:00" "2024-05-01T11:00:03"
        (fun _ => Raise (Exception "Audio transcription failed"))
        (fun text => _fallback_analysis text).

Definition route_world : RouteEnv unit :=
  mkRouteEnv env_json "session_0"
             (fun _ => Return (Some tt))
             (fun _ => Return (Some "https://example.org/image.png")).

Definition route_world_no_embedding : RouteEnv unit :=
  mkRouteEnv env_json "session_0"
             (fun _ => Raise (Exception "Embedding creation failed"))
             (fun _ => Return None).

(** The application with the session [s1] and its history, and no meeting. *)
Definition app_with_history : App unit := mkApp (Some service_with_history) [].

(** The application with the new session [s1]. *)
Definition app_s1 : App unit := mkApp (Some service_s1) [].

(** A [jsonify] that refuses every session. *)
Definition jsonify_refusing (session : Session) : outcome string :=
  Raise (Exception "Object of type BytesIO is not JSON serializable").

(** ** Substring test *)

Section Strings.
Import PyStr.

Lemma startswith_spec (p s : string) :
  startswith p s = true <-> exists rest, s = p +:+ rest.
Proof.
  revert s. induction p as [|a p IH]; intros s; simpl.
  - split; [intros _; exists s; reflexivity | reflexivity].
  - destruct s as [|b s].
    + split; [discriminate | intros [rest H]; discriminate].
    + destruct (ascii_dec a b) as [->|Hne].
      * rewrite IH. split; intros [rest H]; exists rest.
        -- now rewrite H.
        -- now injection H.
      * split; [discriminate | intros [rest H]; injection H; intros; congruence].
Qed.

Lemma contains_unfold (needle hay : string) :
  contains needle hay =
  startswith needle hay ||
  match hay with EmptyString => false | String _ hay' => contains needle hay' end.
Proof. destruct hay; reflexivity. Qed.

Lemma contains_spec (needle hay : string) :
  contains needle hay = true <-> Substring needle hay.
Proof.
  split.
  - induction hay as [|c hay IH]; rewrite contains_unfold, orb_true_iff.
    + intros [H|H]; [|discriminate].
      apply startswith_spec in H as [rest ->]. now exists EmptyString, rest.
    + intros [H|H].
      * apply startswith_spec in H as [rest ->]. now exists EmptyString, rest.
      * destruct (IH H) as (pre & post & ->). now exists (String c pre), post.
  - intros (pre & post & ->). induction pre as [|c pre IH].
    + rewrite contains_unfold. apply orb_true_iff. left.
      apply startswith_spec. now exists post.
    + rewrite contains_unfold. apply orb_true_iff. right. exact IH.
Qed.

#[export] Instance Substring_dec (needle hay : string) : Decision (Substring needle hay).
Proof.
  destruct (contains needle hay) eqn:E.
  - left. now apply contains_spec.
  - right. intros H. apply contains_spec in H. congruence.
Defined.

(** [any_in] is the existence of a listed word occurring in the text. *)
Lemma any_in_true (ws : list string) (text : string) :
  any_in ws text = true <-> exists w, w ∈ ws /\ Substring w text.
Proof.
  unfold any_in. rewrite existsb_exists. split; intros (w & Hin & H); exists w.
  - split; [now apply list_elem_of_In | now apply contains_spec].
  - split; [now apply list_elem_of_In | now apply contains_spec].
Qed.

Lemma any_in_false (ws : list string) (text : string) :
  any_in ws text = false <-> forall w, w ∈ ws -> ~ Substring w text.
Proof.
  rewrite <- not_true_iff_false, any_in_true. split.
  - intros H w Hin Hs. apply H. now exists w.
  - intros H (w & Hin & Hs). exact (H w Hin Hs).
Qed.

(** Lower-casing goes through concatenation, in both directions. *)
Lemma lower_app (a b : string) : lower (a +:+ b) = lower a +:+ lower b.
Proof. induction a as [|c a IH]; simpl; [reflexivity | now rewrite IH]. Qed.

Lemma lower_split (t x y : string) :
  lower t = x +:+ y -> exists a b, t = a +:+ b /\ lower a = x /\ lower b = y.
Proof.
  revert t. induction x as [|c x IH]; intros t H.
  - exists EmptyString, t. now repeat split.
  - destruct t as [|d t]; [discriminate H|].
    simpl in H. injection H as Hc Ht.
    destruct (IH t Ht) as (a & b & -> & Ha & Hb).
    exists (String d a), b. simpl. rewrite Hc, Ha. now repeat split.
Qed.

(** Looking for the lower-case form of a word in the lower-cased text is
    looking for the word up to case. *)
Lemma substring_lower (w t : string) :
  Substring (lower w) (lower t) <-> matches_ignoring_case w t.
Proof.
  split.
  - intros (pre & post & H).
    destruct (lower_split _ _ _ H) as (a & rest & -> & Ha & Hrest).
    destruct (lower_split _ _ _ Hrest) as (u & c & -> & Hu & Hc).
    exists u. split; [now exists a, c | exact Hu].
  - intros (u & (pre & post & ->) & Hu).
    exists (lower pre), (lower post). now rewrite !lower_app, Hu.
Qed.

Lemma lowercase_match (w t : string) :
  lower w = w -> (Substring w (lower t) <-> matches_ignoring_case w t).
Proof. intros H. rewrite <- substring_lower. now rewrite H. Qed.

#[export] Instance matches_ignoring_case_dec (w t : string) :
  Decision (matches_ignoring_case w t).
Proof.
  destruct (decide (Substring (lower w) (lower t))) as [H|H].
  - left. now apply substring_lower.
  - right. intros M. apply H. now apply substring_lower.
Defined.

Lemma any_in_match_true (ws : list string) (t : string) :
  all_lowercase ws ->
  (any_in ws (lower t) = true <-> exists w, w ∈ ws /\ matches_ignoring_case w t).
Proof.
  intros Hlow. rewrite any_in_true.
  split; intros (w & Hin & H); exists w; (split; [exact Hin|]);
    apply (lowercase_match w t); try assumption;
    exact (proj1 (Forall_forall _ _) Hlow w Hin).
Qed.

Lemma any_in_match_false (ws : list string) (t : string) :
  all_lowercase ws ->
  (any_in ws (lower t) = false <-> forall w, w ∈ ws -> ~ matches_ignoring_case w t).
Proof.
  intros Hlow. rewrite <- not_true_iff_false, (any_in_match_true _ _ Hlow). split.
  - intros H w Hin Hs. apply H. now exists w.
  - intros H (w & Hin & Hs). exact (H w Hin Hs).
Qed.

(** The number of listed words that occur in the text up to case, each
    counted once however often it occurs. *)
Definition present_count (ws : list string) (text : string) : Z :=
  Z.of_nat (length (filter (fun w => matches_ignoring_case w text) ws)).

Lemma count_in_present (ws : list string) (t : string) :
  all_lowercase ws -> count_in ws (lower t) = present_count ws t.
Proof.
  unfold count_in, present_count. intros Hlow. f_equal.
  induction Hlow as [|w ws Hw Hlow IH]; [reflexivity|].
  simpl. rewrite filter_cons. destruct (contains w (lower t)) eqn:E.
  - rewrite decide_True; [simpl; now rewrite IH|].
    apply lowercase_match; [exact Hw | now apply contains_spec].
  - rewrite decide_False; [exact IH|].
    intros H. apply lowercase_match in H; [|exact Hw].
    apply contains_spec in H. congruence.
Qed.

Lemma keywords_lowercase (r : string * list string) (w : string) :
  r ∈ keywords -> w ∈ r.2 -> lower w = w.
Proof.
  assert (H : Forall (fun r => all_lowercase r.2) keywords)
    by (repeat constructor).
  intros Hr Hw.
  exact (proj1 (Forall_forall _ _) (proj1 (Forall_forall _ _) H r Hr) w Hw).
Qed.

Lemma word_lists_lowercase :
  all_lowercase action_indicators /\ all_lowercase positive_words
  /\ all_lowercase negative_words.
Proof. repeat split; repeat constructor. Qed.

End Strings.

(** ** The live analysis updater *)

Section LiveAnalysisUpdater.
Import PyStr.

Example update_analysis_example :
  update_analysis (mkLiveAnalysis 0 0 "Unknown" "neutral" 0)
                  "We need to assign this as an action item, deadline Friday"
  = mkLiveAnalysis 11 0 "meeting" "neutral" 1.
Proof. vm_compute. reflexivity. Qed.

(** Only the topic loop writes [current_topic]. *)
Lemma current_topic_update (a : LiveAnalysis) (t : string) :
  current_topic (update_analysis a t) =
  current_topic (topic_loop keywords (lower t)
                   (set_word_count (word_count a + Z.of_nat (length (split t))) a)).
Proof.
  unfold update_analysis.
  repeat match goal with |- context [if ?b then _ else _] => destruct b end;
    reflexivity.
Qed.

Lemma topic_loop_first (pre post : list (string * list string))
      (topic : string) (ws : list string) (text : string) (a : LiveAnalysis) :
  (forall r, r ∈ pre -> any_in r.2 text = false) ->
  any_in ws text = true ->
  topic_loop (pre ++ (topic, ws) :: post) text a = set_current_topic topic a.
Proof.
  intros Hpre Hws. induction pre as [|[t0 w0] pre IH]; simpl.
  - now rewrite Hws.
  - pose proof (Hpre (t0, w0) (list_elem_of_here _ _)) as H0. simpl in H0.
    rewrite H0. apply IH. intros r Hr. apply Hpre. now apply list_elem_of_further.
Qed.

Lemma topic_loop_none (rules : list (string * list string))
      (text : string) (a : LiveAnalysis) :
  (forall r, r ∈ rules -> any_in r.2 text = false) ->
  topic_loop rules text a = a.
Proof.
  intros H. induction rules as [|[t0 w0] rules IH]; simpl; [reflexivity|].
  pose proof (H (t0, w0) (list_elem_of_here _ _)) as H0. simpl in H0.
  rewrite H0. apply IH. intros r Hr. apply H. now apply list_elem_of_further.
Qed.

(** Only the action-item test writes [action_items_detected]. *)
Lemma action_items_update (a : LiveAnalysis) (t : string) :
  action_items_detected (update_analysis a t) =
  if any_in action_indicators (lower t)
  then action_items_detected a + 1 else action_items_detected a.
Proof.
  assert (Hloop : forall rules text b,
             action_items_detected (topic_loop rules text b) = action_items_detected b).
  { induction rules as [|[t0 w0] rules IH]; intros text b; simpl; [reflexivity|].
    destruct (any_in w0 text); [reflexivity | apply IH]. }
  unfold update_analysis.
  destruct (any_in action_indicators (lower t));
    repeat match goal with |- context [if ?b then _ else _] => destruct b end;
    cbn [action_items_detected set_sentiment set_action_items_detected];
    rewrite Hloop; reflexivity.
Qed.

Lemma sentiment_update (a : LiveAnalysis) (t : string) :
  sentiment (update_analysis a t) =
  if count_in positive_words (lower t) >? count_in negative_words (lower t)
  then "positive"
  else if count_in negative_words (lower t) >? count_in positive_words (lower t)
       then "negative" else "neutral".
Proof.
  unfold update_analysis.
  repeat match goal with |- context [if ?b then _ else _] => destruct b end;
    reflexivity.
Qed.

(** C6. The live-analysis update sets [current_topic] by the first rule,
    in the order planning, technical, business, meeting, one of whose
    keywords occurs in the segment text up to case (the keyword is a
    substring of the lower-cased text); when no keyword of any rule
    occurs, [current_topic] keeps its previous value. *)
Theorem topic_first_matching_rule (session : Session) (new_text : string) :
  let before := live_analysis session in
  let after := live_analysis (_update_live_analysis session new_text) in
  map fst keywords = ["planning"; "technical"; "business"; "meeting"]
  /\ (forall pre topic ws post,
         keywords = pre ++ (topic, ws) :: post ->
         (forall r w, r ∈ pre -> w ∈ r.2 -> ~ matches_ignoring_case w new_text) ->
         (exists w, w ∈ ws /\ matches_ignoring_case w new_text) ->
         current_topic after = topic)
  /\ ((forall r w, r ∈ keywords -> w ∈ r.2 -> ~ matches_ignoring_case w new_text) ->
      current_topic after = current_topic before)
  /\ (forall r w, r ∈ keywords -> w ∈ r.2 ->
        (matches_ignoring_case w new_text <-> Substring w (lower new_text))).
Proof.
  cbv zeta. unfold _update_live_analysis. cbn [live_analysis set_live_analysis].
  split; [reflexivity|]. split; [|split].
  - intros pre topic ws post Hk Hpre Hws.
    assert (Hin : forall r, r ∈ pre ++ (topic, ws) :: post -> r ∈ keywords)
      by (intros r Hr; now rewrite Hk).
    rewrite current_topic_update, Hk, topic_loop_first; [reflexivity| |].
    + intros r Hr. apply any_in_false. intros w Hw Hs. apply (Hpre r w Hr Hw).
      apply lowercase_match; [|exact Hs].
      apply (keywords_lowercase r w); [|exact Hw].
      apply Hin, elem_of_app. now left.
    + apply any_in_true. destruct Hws as (w & Hw & Hm). exists w. split; [exact Hw|].
      apply lowercase_match; [|exact Hm].
      apply (keywords_lowercase (topic, ws) w); [|exact Hw].
      apply Hin, elem_of_app. right. apply list_elem_of_here.
  - intros Hnone. rewrite current_topic_update, topic_loop_none; [reflexivity|].
    intros r Hr. apply any_in_false. intros w Hw Hs. apply (Hnone r w Hr Hw).
    apply lowercase_match; [|exact Hs]. exact (keywords_lowercase r w Hr Hw).
  - intros r w Hr Hw. symmetry. apply lowercase_match.
    exact (keywords_lowercase r w Hr Hw).
Qed.

(** C7. The live-analysis update adds exactly 1 to
    [action_items_detected] when at least one of "todo", "action",
    "assign", "responsible", "deadline", "due" occurs in the segment text
    up to case, however many of them occur, and adds nothing when none
    occurs; the text "We need to assign this as an action item, deadline
    Friday", in which three of them occur, adds exactly 1. *)
Theorem action_items_at_most_once (session : Session) (new_text : string) :
  let before := live_analysis session in
  let after := live_analysis (_update_live_analysis session new_text) in
  let example := "We need to assign this as an action item, deadline Friday" in
  let after_example := live_analysis (_update_live_analysis session example) in
  action_indicators = ["todo"; "action"; "assign"; "responsible"; "deadline"; "due"]
  /\ ((exists ind, ind ∈ action_indicators /\ matches_ignoring_case ind new_text) ->
      action_items_detected after = action_items_detected before + 1)
  /\ ((forall ind, ind ∈ action_indicators -> ~ matches_ignoring_case ind new_text) ->
      action_items_detected after = action_items_detected before)
  /\ action_items_detected after_example = action_items_detected before + 1
  /\ filter (fun ind => matches_ignoring_case ind example) action_indicators
     = ["action"; "assign"; "deadline"].
Proof.
  cbv zeta. unfold _update_live_analysis. cbn [live_analysis set_live_analysis].
  destruct word_lists_lowercase as (Hlow & _).
  split; [reflexivity|]. split; [|split; [|split]].
  - intros H. apply (any_in_match_true _ _ Hlow) in H.
    now rewrite action_items_update, H.
  - intros H. apply (any_in_match_false _ _ Hlow) in H.
    now rewrite action_items_update, H.
  - rewrite action_items_update. reflexivity.
  - vm_compute. reflexivity.
Qed.

(** C5, as stated, fails: in "good good issue" the positive word occurs
    twice and the negative word once, yet the update answers "neutral",
    because it counts the word "good" once. *)
Lemma sentiment_counts_occurrences_fails :
  ~ sentiment_counts_occurrences (new_session "s1" "t0") "good good issue".
Proof. unfold sentiment_counts_occurrences. vm_compute. discriminate. Qed.

(** C5, amended. The sentiment written by the live-analysis update
    depends on the segment text alone: with p the number of words of
    the positive list that occur at least once in the text up to case,
    and n the same number for the negative list, it is "positive" when
    p > n, "negative" when n > p and "neutral" otherwise, whatever the
    previous sentiment was. Each list has five words, so p and n are at
    most 5. *)
Theorem sentiment_by_presence (session : Session) (new_text : string) :
  let after := live_analysis (_update_live_analysis session new_text) in
  let p := present_count positive_words new_text in
  let n := present_count negative_words new_text in
  positive_words = ["good"; "great"; "excellent"; "success"; "positive"]
  /\ negative_words = ["issue"; "problem"; "concern"; "difficult"; "challenge"]
  /\ 0 <= p <= 5 /\ 0 <= n <= 5
  /\ (n < p -> sentiment after = "positive")
  /\ (p < n -> sentiment after = "negative")
  /\ (p = n -> sentiment after = "neutral").
Proof.
  cbv zeta. unfold _update_live_analysis. cbn [live_analysis set_live_analysis].
  destruct word_lists_lowercase as (_ & Hpos & Hneg).
  split; [reflexivity|]. split; [reflexivity|].
  rewrite sentiment_update, (count_in_present _ _ Hpos), (count_in_present _ _ Hneg).
  assert (Hbound : forall ws : list string,
             0 <= present_count ws new_text <= Z.of_nat (length ws)).
  { intros ws. unfold present_count.
    pose proof (length_filter (fun w => matches_ignoring_case w new_text) ws). lia. }
  pose proof (Hbound positive_words) as Hp. pose proof (Hbound negative_words) as Hn.
  change (Z.of_nat (length positive_words)) with 5 in Hp.
  change (Z.of_nat (length negative_words)) with 5 in Hn.
  set (p := present_count positive_words _) in *.
  set (n := present_count negative_words _) in *.
  split; [exact Hp|]. split; [exact Hn|].
  split; [|split]; intros H.
  - destruct (Z.gtb_spec p n); [reflexivity | lia].
  - destruct (Z.gtb_spec p n); [lia|]. destruct (Z.gtb_spec n p); [reflexivity | lia].
  - destruct (Z.gtb_spec p n); [lia|]. destruct (Z.gtb_spec n p); [lia | reflexivity].
Qed.

End LiveAnalysisUpdater.

(** ** What a call does to the session it finds *)

Section SessionStep.
Context {Analysis : Type}.
Implicit Types (st : State) (env : Env Analysis) (s : Session).

Lemma lookup_store (sid : string) s st :
  active_sessions (store sid s st) !! sid = Some s.
Proof. unfold store. simpl. apply lookup_insert_eq. Qed.

Lemma lookup_store_ne (sid sid' : string) s st :
  sid <> sid' -> active_sessions (store sid s st) !! sid' = active_sessions st !! sid'.
Proof. intros H. unfold store. simpl. now apply lookup_insert_ne. Qed.

Lemma store_store (sid : string) s s' st :
  store sid s' (store sid s st) = store sid s' st.
Proof. unfold store, set_active_sessions. simpl. now rewrite insert_insert_eq. Qed.

Lemma _process_buffer_found (sid : string) s st env :
  _process_buffer (store sid s st) sid env =
  (Return (flush_result sid s env).1, store sid (flush_result sid s env).2 st).
Proof.
  unfold _process_buffer, _process_buffer_body, flush_result.
  rewrite lookup_store. cbn [read seek getvalue tell].
  destruct (PyStr.truthy _); cbn [try_except fst snd]; now rewrite store_store.
Qed.

Lemma process_audio_chunk_found st (sid : string) s audio_data env :
  active_sessions st !! sid = Some s ->
  process_audio_chunk st sid audio_data env =
  (Return (chunk_result sid s audio_data env).1,
   store sid (chunk_result sid s audio_data env).2 st).
Proof.
  intros Hs. unfold process_audio_chunk, process_audio_chunk_body, chunk_result.
  rewrite Hs. fold (with_chunk s audio_data env). fold flush_threshold.
  destruct (_ >=? flush_threshold).
  - rewrite _process_buffer_found. reflexivity.
  - reflexivity.
Qed.

Lemma process_audio_chunk_unknown st (sid : string) audio_data env :
  active_sessions st !! sid = None ->
  process_audio_chunk st sid audio_data env =
  (Return (ErrorDict ("Session " +:+ sid +:+ " not found")), st).
Proof.
  intros Hs. unfold process_audio_chunk, process_audio_chunk_body.
  now rewrite Hs.
Qed.

(** Every call records its chunk, whatever the flush does. *)
Lemma chunk_result_audio_chunks (sid : string) s audio_data env :
  audio_chunks (chunk_result sid s audio_data env).2 =
  audio_chunks s ++ [mkChunk (now env) (Z.of_nat (length audio_data))].
Proof.
  unfold chunk_result, flush_result. cbn [read seek getvalue tell].
  repeat match goal with |- context [if ?b then _ else _] => destruct b end;
    reflexivity.
Qed.

Lemma chunk_result_is_active (sid : string) s audio_data env :
  is_active (chunk_result sid s audio_data env).2 = is_active s.
Proof.
  unfold chunk_result, flush_result. cbn [read seek getvalue tell].
  repeat match goal with |- context [if ?b then _ else _] => destruct b end;
    reflexivity.
Qed.

Lemma chunk_result_no_error (sid : string) s audio_data env :
  has_error_key (chunk_result sid s audio_data env).1 = false.
Proof.
  unfold chunk_result, flush_result. cbn [read seek getvalue tell].
  repeat match goal with |- context [if ?b then _ else _] => destruct b end;
    reflexivity.
Qed.

(** The flag [is_active] is carried along and never read. *)
Lemma chunk_result_set_is_active (sid : string) s (b : bool) audio_data env :
  chunk_result sid (set_is_active b s) audio_data env =
  ((chunk_result sid s audio_data env).1,
   set_is_active b (chunk_result sid s audio_data env).2).
Proof.
  unfold chunk_result, flush_result. cbn [read seek getvalue tell].
  unfold with_chunk.
  cbn [audio_buffer audio_chunks set_audio_chunks set_audio_buffer set_is_active].
  repeat match goal with |- context [if ?b then _ else _] => destruct b end;
    reflexivity.
Qed.

End SessionStep.

(** ** The buffer across one call *)

Section BufferStep.
Context {Analysis : Type}.
Implicit Types (st : State) (env : Env Analysis) (s : Session).

Lemma write_at_end (b : BytesIO) (data : list Byte.byte) :
  at_end b ->
  getvalue (write b data) = getvalue b ++ data /\ at_end (write b data).
Proof.
  unfold at_end, write. intros E. cbn [getvalue tell]. rewrite E.
  rewrite firstn_all, Nat.sub_diag, drop_ge by lia. cbn [replicate].
  rewrite app_nil_r. split; [reflexivity|]. rewrite length_app. reflexivity.
Qed.

Lemma read_all (b : BytesIO) :
  read (seek b 0) = (getvalue b, mkBytesIO (getvalue b) (length (getvalue b))).
Proof. unfold read, seek. cbn [getvalue tell]. now rewrite drop_0, Nat.max_0_l. Qed.

Lemma buffering_below_threshold (sid : string) s audio_data env :
  Z.of_nat (tell (audio_buffer s) + length audio_data) < flush_threshold ->
  chunk_result sid s audio_data env =
  (Buffering sid (Z.of_nat (tell (audio_buffer s) + length audio_data))
             (Z.of_nat (length (audio_chunks s ++
                [mkChunk (now env) (Z.of_nat (length audio_data))]))),
   with_chunk s audio_data env).
Proof.
  intros H. unfold chunk_result.
  change (tell (audio_buffer (with_chunk s audio_data env)))
    with (tell (audio_buffer s) + length audio_data)%nat.
  destruct (Z.geb_spec (Z.of_nat (tell (audio_buffer s) + length audio_data))
                       flush_threshold); [lia | reflexivity].
Qed.

(** A flush whose transcription is empty answers [no_transcription] with
    [buffer_cleared] set, and leaves every byte in the buffer. *)
Lemma flush_without_text_keeps_bytes (sid : string) s audio_data env :
  at_end (audio_buffer s) ->
  flush_threshold <= Z.of_nat (length (getvalue (audio_buffer s)) + length audio_data) ->
  _transcribe_chunk env (getvalue (audio_buffer s) ++ audio_data) = "" ->
  let r := chunk_result sid s audio_data env in
  r.1 = NoTranscription sid true
  /\ getvalue (audio_buffer r.2) = getvalue (audio_buffer s) ++ audio_data
  /\ tell (audio_buffer r.2) = (length (getvalue (audio_buffer s)) + length audio_data)%nat
  /\ transcription_segments r.2 = transcription_segments s
  /\ live_analysis r.2 = live_analysis s.
Proof.
  intros E Hthr Hempty. destruct (write_at_end _ audio_data E) as [Hv Hpos].
  cbv zeta. unfold chunk_result.
  change (tell (audio_buffer (with_chunk s audio_data env)))
    with (tell (audio_buffer s) + length audio_data)%nat.
  rewrite E.
  destruct (Z.geb_spec (Z.of_nat (length (getvalue (audio_buffer s)) + length audio_data))
                       flush_threshold); [|lia].
  unfold flush_result. rewrite read_all.
  change (getvalue (audio_buffer (with_chunk s audio_data env)))
    with (getvalue (write (audio_buffer s) audio_data)).
  rewrite Hv, Hempty. cbn [PyStr.truthy PyStr.is_empty negb fst snd].
  cbn [audio_buffer set_audio_buffer getvalue tell transcription_segments live_analysis
       with_chunk set_audio_chunks].
  rewrite length_app. repeat split.
Qed.

(** A flush whose transcription is not empty records one segment and
    installs a new, empty buffer. *)
Lemma flush_with_text_clears (sid : string) s audio_data env :
  at_end (audio_buffer s) ->
  flush_threshold <= Z.of_nat (length (getvalue (audio_buffer s)) + length audio_data) ->
  PyStr.truthy (_transcribe_chunk env (getvalue (audio_buffer s) ++ audio_data)) = true ->
  let r := chunk_result sid s audio_data env in
  let text := _transcribe_chunk env (getvalue (audio_buffer s) ++ audio_data) in
  audio_buffer r.2 = BytesIO_new
  /\ transcription_segments r.2 =
     transcription_segments s ++
       [mkSegment (now_segment env) text
          (seconds_of_bytes
             (Z.of_nat (length (getvalue (audio_buffer s) ++ audio_data))))]
  /\ live_analysis r.2 = update_analysis (live_analysis s) text.
Proof.
  intros E Hthr Htext. destruct (write_at_end _ audio_data E) as [Hv Hpos].
  cbv zeta. unfold chunk_result.
  change (tell (audio_buffer (with_chunk s audio_data env)))
    with (tell (audio_buffer s) + length audio_data)%nat.
  rewrite E.
  destruct (Z.geb_spec (Z.of_nat (length (getvalue (audio_buffer s)) + length audio_data))
                       flush_threshold); [|lia].
  unfold flush_result. rewrite read_all.
  change (getvalue (audio_buffer (with_chunk s audio_data env)))
    with (getvalue (write (audio_buffer s) audio_data)).
  rewrite Hv, Htext. repeat split.
Qed.

(** The position stays at the end of the buffer across a call. *)
Lemma chunk_result_at_end (sid : string) s audio_data env :
  at_end (audio_buffer s) ->
  at_end (audio_buffer (chunk_result sid s audio_data env).2).
Proof.
  intros E. destruct (write_at_end _ audio_data E) as [Hv Hpos].
  unfold chunk_result, flush_result. rewrite read_all.
  repeat match goal with |- context [if ?b then _ else _] => destruct b end;
    cbn [snd audio_buffer set_audio_buffer _update_live_analysis set_live_analysis
         set_transcription_segments with_chunk set_audio_chunks];
    first [ exact Hpos | reflexivity ].
Qed.

End BufferStep.

(** ** Summaries and the end of a session *)

Section SummaryStep.
Context {Analysis : Type}.
Implicit Types (st : State) (env : Env Analysis) (s : Session).

Lemma get_session_summary_found st (sid : string) s env :
  active_sessions st !! sid = Some s ->
  get_session_summary st sid env = (Return (Summary (summary_of sid s env)), log_call s st).
Proof.
  intros Hs. unfold get_session_summary, get_session_summary_body, summary_of, log_call.
  rewrite Hs. fold (full_text s). fold (analysed s).
  destruct (analysed s); cbn [try_except].
  - reflexivity.
  - rewrite app_nil_r. now destruct st.
Qed.

Lemma get_session_summary_unknown st (sid : string) env :
  active_sessions st !! sid = None ->
  get_session_summary st sid env =
  (Return (ErrorDict ("Session " +:+ sid +:+ " not found")), st).
Proof.
  intros Hs. unfold get_session_summary, get_session_summary_body. now rewrite Hs.
Qed.

Lemma end_session_found st (sid : string) s env :
  active_sessions st !! sid = Some s ->
  end_session st sid env =
  (Return (Summary (summary_of sid s env)),
   start_cleanup_thread sid (store sid (set_is_active false s) (log_call s st))).
Proof.
  intros Hs. unfold end_session, end_session_body.
  rewrite Hs, (get_session_summary_found _ _ _ _ Hs).
  cbn [log_call active_sessions]. rewrite Hs. reflexivity.
Qed.

Lemma end_session_unknown st (sid : string) env :
  active_sessions st !! sid = None ->
  end_session st sid env =
  (Return (ErrorDict ("Session " +:+ sid +:+ " not found")), st).
Proof.
  intros Hs. unfold end_session, end_session_body. now rewrite Hs.
Qed.

Lemma strip_truthy_nonempty (text : string) :
  PyStr.truthy (PyStr.strip text) = true -> text <> "".
Proof. intros H ->. discriminate H. Qed.

Lemma cleanup_twice (sid : string) st :
  cleanup sid (cleanup sid st) = cleanup sid st.
Proof.
  unfold cleanup. destruct (active_sessions st !! sid) eqn:E.
  - cbn [set_active_sessions active_sessions]. now rewrite lookup_delete_eq.
  - now rewrite E.
Qed.

End SummaryStep.

(** ** The registry *)

Section Registry.
Context {Analysis : Type}.
Implicit Types (st : State) (env : Env Analysis) (s : Session).

(** C3, amended. [create_session] never fails and never looks whether the
    id exists: for every id it returns a new session (no chunks, no
    segments, empty buffer, active) and registers it under the id,
    replacing whatever session was registered there; the other ids and
    the pending cleanup threads are untouched. *)
Theorem create_session_replaces st (session_id : string) env :
  let run := create_session st session_id env in
  let fresh := new_session session_id (now env) in
  run.1 = Return fresh
  /\ active_sessions run.2 !! session_id = Some fresh
  /\ (forall other, other <> session_id ->
        active_sessions run.2 !! other = active_sessions st !! other)
  /\ cleanup_threads run.2 = cleanup_threads st
  /\ audio_chunks fresh = [] /\ transcription_segments fresh = []
  /\ audio_buffer fresh = BytesIO_new /\ is_active fresh = true.
Proof.
  cbv zeta. unfold create_session. cbn [fst snd].
  split; [reflexivity|]. split; [apply lookup_store|]. split.
  - intros other Hne. apply lookup_store_ne. congruence.
  - repeat split.
Qed.

(** C2, amended. [process_audio_chunk] refuses only an id that is not in
    the registry (error dictionary, state unchanged). It never reads
    [is_active]: on a registered session whose flag is false it answers
    without an ['error'] key, records the chunk, writes the bytes to the
    buffer when the threshold is not reached, leaves the flag false, and
    answers and changes the session exactly as it does when the flag is
    true; in particular a flush with a transcription appends a segment. *)
Theorem process_audio_chunk_ignores_is_active st (session_id : string) s
        (audio_data : list Byte.byte) env :
  active_sessions st !! session_id = Some s ->
  is_active s = false ->
  let run := process_audio_chunk st session_id audio_data env in
  let run_active :=
    process_audio_chunk (store session_id (set_is_active true s) st)
                        session_id audio_data env in
  (forall other, active_sessions st !! other = None ->
     process_audio_chunk st other audio_data env =
     (Return (ErrorDict ("Session " +:+ other +:+ " not found")), st))
  /\ exists r s',
      run = (Return r, store session_id s' st)
      /\ has_error_key r = false
      /\ audio_chunks s' =
         audio_chunks s ++ [mkChunk (now env) (Z.of_nat (length audio_data))]
      /\ is_active s' = false
      /\ (Z.of_nat (tell (audio_buffer s) + length audio_data) < flush_threshold ->
          audio_buffer s' = write (audio_buffer s) audio_data)
      /\ run_active = (Return r, store session_id (set_is_active true s') st)
      /\ (at_end (audio_buffer s) ->
          flush_threshold
          <= Z.of_nat (length (getvalue (audio_buffer s)) + length audio_data) ->
          PyStr.truthy
            (_transcribe_chunk env (getvalue (audio_buffer s) ++ audio_data)) = true ->
          exists segment,
            transcription_segments s' = transcription_segments s ++ [segment]).
Proof.
  intros Hs Hflag. cbv zeta. split.
  - intros other Hother. now apply process_audio_chunk_unknown.
  - exists (chunk_result session_id s audio_data env).1,
           (chunk_result session_id s audio_data env).2.
    split; [now apply process_audio_chunk_found|].
    split; [apply chunk_result_no_error|].
    split; [apply chunk_result_audio_chunks|].
    split; [now rewrite chunk_result_is_active|].
    split.
    + intros Hlow. now rewrite (buffering_below_threshold _ _ _ _ Hlow).
    + split.
      * rewrite (process_audio_chunk_found _ _ (set_is_active true s))
          by apply lookup_store.
        rewrite chunk_result_set_is_active. cbn [fst snd]. now rewrite store_store.
      * intros Hend Hthr Htext.
        destruct (flush_with_text_clears session_id s audio_data env Hend Hthr Htext)
          as (_ & Hseg & _).
        eexists. exact Hseg.
Qed.

(** C4, amended. On a registered session, a second [end_session] does not
    raise and leaves the registry as the first call left it, with the
    session inactive; it answers with the summary of the same session
    data (so with the first answer when the clock and the analysis answer
    the same); but it calls the analysis again whenever the transcript is
    not blank, and it starts a second cleanup thread for the same id.
    Running the cleanup twice in a row is the same as running it once:
    when the two threads wake up, the first removes the session and the
    second changes nothing. *)
Theorem end_session_twice st (session_id : string) s env env' :
  active_sessions st !! session_id = Some s ->
  let first := end_session st session_id env in
  let second := end_session first.2 session_id env' in
  first.1 = Return (Summary (summary_of session_id s env))
  /\ second.1 = Return (Summary (summary_of session_id s env'))
  /\ (env' = env -> second.1 = first.1)
  /\ active_sessions second.2 = active_sessions first.2
  /\ active_sessions second.2 !! session_id = Some (set_is_active false s)
  /\ cleanup_threads first.2 = cleanup_threads st ++ [session_id]
  /\ cleanup_threads second.2 = cleanup_threads first.2 ++ [session_id]
  /\ analyze_calls second.2 =
     analyze_calls first.2 ++ (if analysed s then [full_text s] else [])
  /\ (forall x, cleanup session_id (cleanup session_id x) = cleanup session_id x)
  /\ (cleanup_threads st = [] ->
      let woken := run_cleanup_thread second.2 in
      let woken_twice := run_cleanup_thread woken in
      active_sessions woken = delete session_id (active_sessions second.2)
      /\ active_sessions woken_twice = active_sessions woken
      /\ cleanup_threads woken_twice = []).
Proof.
  intros Hs. cbv zeta. rewrite (end_session_found _ _ _ _ Hs). cbn [fst snd].
  set (st1 := start_cleanup_thread _ _).
  assert (H1 : active_sessions st1 !! session_id = Some (set_is_active false s)).
  { unfold st1, start_cleanup_thread. cbn [active_sessions]. apply lookup_store. }
  rewrite (end_session_found _ _ _ _ H1). cbn [fst snd].
  split; [reflexivity|]. split; [reflexivity|]. split; [now intros ->|].
  split.
  { unfold st1, start_cleanup_thread, store, set_active_sessions, log_call.
    cbn [active_sessions set_is_active]. now rewrite insert_insert_eq. }
  split.
  { unfold start_cleanup_thread. cbn [active_sessions]. apply lookup_store. }
  split; [reflexivity|]. split; [reflexivity|]. split; [reflexivity|].
  split; [apply cleanup_twice|].
  intros Hnone. cbv zeta. unfold st1, start_cleanup_thread, log_call, store,
    set_active_sessions, run_cleanup_thread.
  cbn [cleanup_threads active_sessions analyze_calls]. rewrite Hnone.
  cbn [app]. unfold cleanup. cbn [active_sessions cleanup_threads set_active_sessions].
  rewrite lookup_insert_eq. cbn [active_sessions cleanup_threads set_active_sessions].
  rewrite lookup_delete_eq. repeat split.
Qed.

(** C8. [get_session_summary] on a registered session changes neither the
    registry (so not [is_active]) nor the pending cleanup threads; its
    [full_transcription] is the segment texts joined by single spaces;
    its [final_analysis] is computed by a call of the analysis made
    during this very call, which happens exactly when the stripped
    transcript is not empty (hence only for a non-empty transcript), and
    is [None] otherwise. A second call computes it again. *)
Theorem get_session_summary_read_only st (session_id : string) s env env' :
  active_sessions st !! session_id = Some s ->
  let transcript := PyStr.join " " (map seg_text (transcription_segments s)) in
  let invoked := PyStr.truthy (PyStr.strip transcript) in
  let run := get_session_summary st session_id env in
  let rerun := get_session_summary run.2 session_id env' in
  active_sessions run.2 = active_sessions st
  /\ cleanup_threads run.2 = cleanup_threads st
  /\ (exists summary,
        run.1 = Return (Summary summary)
        /\ sum_full_transcription summary = transcript
        /\ sum_final_analysis summary =
           if invoked then Some (analyze_meeting env transcript) else None)
  /\ analyze_calls run.2 = analyze_calls st ++ (if invoked then [transcript] else [])
  /\ (invoked = true -> transcript <> "")
  /\ (exists summary',
        rerun.1 = Return (Summary summary')
        /\ sum_final_analysis summary' =
           if invoked then Some (analyze_meeting env' transcript) else None)
  /\ analyze_calls rerun.2 =
     analyze_calls st ++ (if invoked then [transcript; transcript] else []).
Proof.
  intros Hs. cbv zeta. rewrite (get_session_summary_found _ _ _ _ Hs). cbn [fst snd].
  assert (H1 : active_sessions (log_call s st) !! session_id = Some s) by exact Hs.
  rewrite (get_session_summary_found _ _ _ _ H1). cbn [fst snd].
  fold (full_text s). fold (analysed s).
  split; [reflexivity|]. split; [reflexivity|].
  split; [exists (summary_of session_id s env); repeat split|].
  split; [reflexivity|].
  split; [apply strip_truthy_nonempty|].
  split; [exists (summary_of session_id s env'); repeat split|].
  cbn [log_call analyze_calls]. rewrite <- app_assoc.
  now destruct (analysed s).
Qed.

(** C10. [process_audio_chunk], [get_session_summary] and [end_session]
    always return a dictionary and never raise: whatever their body
    raises comes back as a dictionary with the ['error'] key holding the
    message, and an unknown session id gives the dictionary
    [{'error': 'Session <id> not found'}] with the state unchanged. *)
Theorem service_methods_never_raise st (session_id : string)
        (audio_data : list Byte.byte) env :
  (exists r, (process_audio_chunk st session_id audio_data env).1 = Return r)
  /\ (exists r, (get_session_summary st session_id env).1 = Return r)
  /\ (exists r, (end_session st session_id env).1 = Return r)
  /\ (forall e st',
        process_audio_chunk_body st session_id audio_data env = (Raise e, st') ->
        process_audio_chunk st session_id audio_data env
        = (Return (ErrorDict (str_exn e)), st'))
  /\ (forall e st',
        get_session_summary_body st session_id env = (Raise e, st') ->
        get_session_summary st session_id env = (Return (ErrorDict (str_exn e)), st'))
  /\ (forall e st',
        end_session_body st session_id env = (Raise e, st') ->
        end_session st session_id env = (Return (ErrorDict (str_exn e)), st'))
  /\ (active_sessions st !! session_id = None ->
      let answer : outcome (Response Analysis) * State :=
        (Return (ErrorDict ("Session " +:+ session_id +:+ " not found")), st) in
      process_audio_chunk st session_id audio_data env = answer
      /\ get_session_summary st session_id env = answer
      /\ end_session st session_id env = answer
      /\ has_error_key (ErrorDict (Analysis := Analysis)
                          ("Session " +:+ session_id +:+ " not found")) = true).
Proof.
  assert (Hcatch : forall c : outcome (Response Analysis) * State,
             exists r, (try_except c).1 = Return r).
  { intros [[r|e] st']; cbn [try_except fst]; eauto. }
  split; [apply Hcatch|]. split; [apply Hcatch|]. split; [apply Hcatch|].
  split; [|split; [|split]].
  - intros e st' H. unfold process_audio_chunk. now rewrite H.
  - intros e st' H. unfold get_session_summary. now rewrite H.
  - intros e st' H. unfold end_session. now rewrite H.
  - intros Hs. cbv zeta.
    rewrite process_audio_chunk_unknown, get_session_summary_unknown,
      end_session_unknown by exact Hs.
    repeat split.
Qed.

End Registry.

(** ** Chunk accounting and durations *)

Section Accounting.
Context {Analysis : Type}.
Implicit Types (st : State) (env : Env Analysis) (s : Session).

Lemma total_size_app (l1 l2 : list Chunk) :
  total_size (l1 ++ l2) = total_size l1 + total_size l2.
Proof.
  unfold total_size. induction l1 as [|c l1 IH]; cbn [map fold_right app]; [lia|].
  rewrite IH. lia.
Qed.

Lemma total_size_calls (calls : list (list Byte.byte * Env Analysis)) :
  total_size (map chunk_of_call calls) = bytes_received calls.
Proof.
  unfold total_size, bytes_received.
  induction calls as [|c calls IH]; cbn [map fold_right]; [reflexivity|].
  now rewrite IH.
Qed.

(** A registered session stays registered over any list of calls, and its
    chunk list grows by one entry per call, in order. *)
Lemma process_chunks_audio_chunks (calls : list (list Byte.byte * Env Analysis)) :
  forall st (sid : string) s,
    active_sessions st !! sid = Some s ->
    exists s',
      active_sessions (process_chunks st sid calls) !! sid = Some s'
      /\ audio_chunks s' = audio_chunks s ++ map chunk_of_call calls.
Proof.
  induction calls as [|[audio_data env] calls IH]; intros st sid s Hs.
  - exists s. cbn [process_chunks map]. now rewrite app_nil_r.
  - cbn [process_chunks]. rewrite (process_audio_chunk_found _ _ _ _ _ Hs). cbn [snd].
    destruct (IH (store sid (chunk_result sid s audio_data env).2 st) sid
                 (chunk_result sid s audio_data env).2 (lookup_store _ _ _))
      as (s' & Hs' & Hchunks).
    exists s'. split; [exact Hs'|].
    rewrite Hchunks, chunk_result_audio_chunks, <- app_assoc. reflexivity.
Qed.

End Accounting.

Lemma lookup_service_s1 :
  active_sessions service_s1 !! "s1" = Some (new_session "s1" (now env_failing)).
Proof. unfold service_s1, create_session. cbn [snd]. apply lookup_store. Qed.

Lemma length_three_seconds : Z.of_nat (length three_seconds) = flush_threshold.
Proof.
  unfold three_seconds. rewrite length_replicate, Z2Nat.id; [reflexivity|].
  unfold flush_threshold, sample_rate. lia.
Qed.

Lemma transcribe_failing (audio_data : list Byte.byte) :
  _transcribe_chunk env_failing audio_data = "".
Proof. reflexivity. Qed.

(** The first chunk of a new session, as long as the threshold, in the
    world where transcription fails. *)
Lemma first_chunk_failed_flush (audio_data : list Byte.byte) :
  Z.of_nat (length audio_data) = flush_threshold ->
  let r := chunk_result "s1" (new_session "s1" (now env_failing))
                        audio_data env_failing in
  r.1 = NoTranscription (Analysis := string) "s1" true
  /\ getvalue (audio_buffer r.2) = audio_data
  /\ Z.of_nat (tell (audio_buffer r.2)) = flush_threshold
  /\ transcription_segments r.2 = [].
Proof.
  intros Hlen.
  destruct (flush_without_text_keeps_bytes "s1" (new_session "s1" (now env_failing))
              audio_data env_failing) as (H1 & H2 & H3 & H4 & _).
  - reflexivity.
  - change (flush_threshold <= Z.of_nat (length audio_data)). rewrite Hlen. reflexivity.
  - apply transcribe_failing.
  - cbv zeta. split; [exact H1|]. split; [exact H2|]. split; [|exact H4].
    rewrite H3. exact Hlen.
Qed.

(** After that chunk no segment is recorded and the summary reports the
    three seconds. *)
Lemma failed_first_chunk_counted (audio_data : list Byte.byte) :
  Z.of_nat (length audio_data) = flush_threshold ->
  untranscribed_bytes_counted audio_data env_failing.
Proof.
  intros Hlen. unfold untranscribed_bytes_counted. cbv zeta. cbn [process_chunks].
  rewrite (process_audio_chunk_found _ _ _ _ _ lookup_service_s1). cbn [snd].
  destruct (first_chunk_failed_flush audio_data Hlen) as (_ & _ & _ & Hseg).
  pose proof (chunk_result_audio_chunks "s1" (new_session "s1" (now env_failing))
                audio_data env_failing) as Hchunks.
  revert Hseg Hchunks.
  generalize (chunk_result "s1" (new_session "s1" (now env_failing))
                audio_data env_failing).2.
  intros s1 Hseg Hchunks.
  exists s1, (summary_of "s1" s1 env_failing).
  split; [apply lookup_store|]. split; [exact Hseg|].
  split; [now rewrite (get_session_summary_found _ _ s1) by apply lookup_store|].
  unfold segments_duration. rewrite Hseg.
  cbn [summary_of sum_duration_seconds map fold_right].
  rewrite Hchunks.
  cbn [new_session audio_chunks app total_size map fold_right ck_size].
  rewrite Hlen. vm_compute. reflexivity.
Qed.

(** C1, at its failing input. A new session receives one chunk of 96000
    bytes while the transcription fails: the answer is [no_transcription]
    with [buffer_cleared] true, yet the buffer still holds the 96000
    bytes, which is not below the flush threshold. *)
Theorem failed_flush_leaves_buffer_full :
  let run := process_audio_chunk service_s1 "s1" three_seconds env_failing in
  run.1 = Return (NoTranscription "s1" true)
  /\ exists s',
      active_sessions run.2 !! "s1" = Some s'
      /\ getvalue (audio_buffer s') = three_seconds
      /\ Z.of_nat (length (getvalue (audio_buffer s'))) = flush_threshold
      /\ Z.of_nat (tell (audio_buffer s')) = flush_threshold
      /\ ~ (Z.of_nat (tell (audio_buffer s')) < flush_threshold).
Proof.
  pose proof length_three_seconds as Hlen. revert Hlen.
  generalize three_seconds. intros audio_data Hlen. cbv zeta.
  rewrite (process_audio_chunk_found _ _ _ _ _ lookup_service_s1).
  destruct (first_chunk_failed_flush audio_data Hlen) as (H1 & H2 & H3 & _).
  cbn [fst snd].
  split; [now rewrite H1|].
  eexists. split; [apply lookup_store|].
  split; [exact H2|]. split; [now rewrite H2|].
  split; [exact H3|]. rewrite H3. lia.
Qed.

Section Durations.
Context {Analysis : Type}.
Implicit Types (st : State) (env : Env Analysis) (s : Session).

(** C9. After any list of [process_audio_chunk] calls on a registered
    session, the [duration_seconds] of the summary, from
    [get_session_summary] and from [end_session] alike, is the number of
    bytes of all chunks received (those recorded before plus those of the
    calls) divided by [sample_rate * 2], whether or not they were
    transcribed; and it can exceed the sum of the segment durations, both
    with audio waiting below the threshold and after a failed flush. *)
Theorem duration_counts_every_byte st (session_id : string) s
        (calls : list (list Byte.byte * Env Analysis)) env :
  active_sessions st !! session_id = Some s ->
  let st' := process_chunks st session_id calls in
  let received := total_size (audio_chunks s) + bytes_received calls in
  (exists summary,
      (get_session_summary st' session_id env).1 = Return (Summary summary)
      /\ sum_duration_seconds summary = seconds_of_bytes received)
  /\ (exists summary,
      (end_session st' session_id env).1 = Return (Summary summary)
      /\ sum_duration_seconds summary = seconds_of_bytes received)
  /\ (seconds_of_bytes received == inject_Z received / inject_Z (16000 * 2))%Q
  /\ (audio_chunks s = [] -> received = bytes_received calls)
  /\ untranscribed_bytes_counted [Byte.x00; Byte.x00] env_talking
  /\ untranscribed_bytes_counted three_seconds env_failing.
Proof.
  intros Hs. cbv zeta.
  destruct (process_chunks_audio_chunks calls st session_id s Hs) as (s' & Hs' & Hc).
  assert (Hd : total_size (audio_chunks s')
               = total_size (audio_chunks s) + bytes_received calls).
  { now rewrite Hc, total_size_app, total_size_calls. }
  split.
  { exists (summary_of session_id s' env).
    rewrite (get_session_summary_found _ _ _ _ Hs'). cbn [fst summary_of sum_duration_seconds].
    now rewrite Hd. }
  split.
  { exists (summary_of session_id s' env).
    rewrite (end_session_found _ _ _ _ Hs'). cbn [fst summary_of sum_duration_seconds].
    now rewrite Hd. }
  split; [reflexivity|].
  split; [intros ->; reflexivity|].
  split.
  - unfold untranscribed_bytes_counted. cbv zeta.
    eexists _, _. repeat split; vm_compute; reflexivity.
  - apply failed_first_chunk_counted, length_three_seconds.
Qed.

End Durations.

(** ** The statements that fail, and the theorems at concrete sessions *)

Lemma lookup_service_ended :
  active_sessions service_ended !! "s1"
  = Some (set_is_active false (new_session "s1" (now env_failing))).
Proof. vm_compute. reflexivity. Qed.

Lemma lookup_service_with_history :
  active_sessions service_with_history !! "s1" = Some session_with_history.
Proof. vm_compute. reflexivity. Qed.

(** C2, as stated, fails: after [create_session] and [end_session] the
    session [s1] is inactive, and a chunk of one byte is accepted: the
    answer is the [buffering] dictionary and the state has changed. *)
Lemma inactive_session_refuses_fails :
  ~ inactive_session_refuses service_ended "s1" [Byte.x01] env_failing.
Proof.
  intros H. destruct (H _ lookup_service_ended eq_refl) as [Hfailed _].
  vm_compute in Hfailed. discriminate Hfailed.
Qed.

(** C3, as stated, fails: [s1] is registered with one chunk and one
    segment, and creating [s1] again returns a session instead of
    failing. *)
Lemma create_refuses_duplicate_fails :
  ~ create_refuses_duplicate service_with_history "s1" env_talking.
Proof.
  intros H. destruct H as [[e He] _].
  - exists session_with_history. exact lookup_service_with_history.
  - discriminate He.
Qed.

(** C4, as stated, fails: ending the new session [s1] twice leaves two
    cleanup threads for [s1] where the first call had left one. *)
Lemma second_end_is_silent_fails :
  ~ second_end_is_silent service_s1 "s1" env_failing.
Proof.
  intros [_ H]. vm_compute in H. discriminate H.
Qed.

(** The amended C2 on the ended session [s1]: the chunk is recorded. *)
Lemma process_audio_chunk_ignores_is_active_witness :
  active_sessions service_ended !! "s1"
  = Some (set_is_active false (new_session "s1" (now env_failing)))
  /\ is_active (set_is_active false (new_session "s1" (now env_failing))) = false
  /\ exists r s',
      process_audio_chunk service_ended "s1" [Byte.x01] env_failing
      = (Return r, store "s1" s' service_ended)
      /\ has_error_key r = false
      /\ audio_chunks s' = [mkChunk (now env_failing) 1].
Proof.
  split; [exact lookup_service_ended|]. split; [reflexivity|].
  destruct (process_audio_chunk_ignores_is_active service_ended "s1" _ [Byte.x01]
              env_failing lookup_service_ended eq_refl)
    as (_ & r & s' & Hrun & Herr & Hchunks & _).
  exists r, s'. split; [exact Hrun|]. split; [exact Herr|]. exact Hchunks.
Defined.

(** The amended C4 on a session with a transcript: two cleanup threads and
    two calls of the analysis. *)
Lemma end_session_twice_witness :
  active_sessions service_with_history !! "s1" = Some session_with_history
  /\ let first := end_session service_with_history "s1" env_talking in
     let second := end_session first.2 "s1" env_talking in
     cleanup_threads second.2 = ["s1"; "s1"]
     /\ analyze_calls second.2 = ["we plan the roadmap"; "we plan the roadmap"]
     /\ second.1 = first.1.
Proof.
  split; [exact lookup_service_with_history|].
  destruct (end_session_twice service_with_history "s1" session_with_history
              env_talking env_talking lookup_service_with_history)
    as (_ & _ & Hsame & _ & _ & H1 & H2 & H3 & _).
  cbv zeta. split; [|split].
  - rewrite H2, H1. reflexivity.
  - rewrite H3. vm_compute. reflexivity.
  - apply Hsame. reflexivity.
Defined.

(** C8 on a session with a transcript. *)
Lemma get_session_summary_read_only_witness :
  active_sessions service_with_history !! "s1" = Some session_with_history
  /\ let run := get_session_summary service_with_history "s1" env_talking in
     active_sessions run.2 = active_sessions service_with_history
     /\ cleanup_threads run.2 = []
     /\ analyze_calls run.2 = ["we plan the roadmap"].
Proof.
  split; [exact lookup_service_with_history|].
  destruct (get_session_summary_read_only service_with_history "s1" session_with_history
              env_talking env_talking lookup_service_with_history)
    as (Hreg & Hthreads & _ & Hcalls & _).
  cbv zeta. split; [exact Hreg|]. split; [exact Hthreads|]. exact Hcalls.
Defined.

(** C9 on the new session [s1] after two chunks of two bytes and one
    byte: the summary reports 3 / 32000 seconds. *)
Lemma duration_counts_every_byte_witness :
  active_sessions service_s1 !! "s1" = Some (new_session "s1" (now env_failing))
  /\ exists summary,
      (get_session_summary
         (process_chunks service_s1 "s1"
            [([Byte.x00; Byte.x00], env_talking); ([Byte.x00], env_failing)])
         "s1" env_talking).1 = Return (Summary summary)
      /\ sum_duration_seconds summary = seconds_of_bytes 3.
Proof.
  split; [exact lookup_service_s1|].
  exact (proj1 (duration_counts_every_byte service_s1 "s1" _
                  [([Byte.x00; Byte.x00], env_talking); ([Byte.x00], env_failing)]
                  env_talking lookup_service_s1)).
Defined.

(** ** More on the string operations *)

Section MoreStrings.
Import PyStr.

Lemma append_cons (x : ascii) (a b : string) :
  String x a +:+ b = String x (a +:+ b).
Proof. reflexivity. Qed.

Lemma append_assoc (a b c : string) : (a +:+ b) +:+ c = a +:+ (b +:+ c).
Proof.
  induction a as [|x a IH]; [reflexivity|]. rewrite !append_cons. now rewrite IH.
Qed.

Lemma append_nil_r (a : string) : a +:+ "" = a.
Proof. induction a as [|x a IH]; [reflexivity|]. rewrite append_cons. now rewrite IH. Qed.

(** A space between two texts separates their tokens. *)
Lemma split_from_space (cur a b : string) :
  split_from cur (a +:+ String " " b) = split_from cur a ++ split b.
Proof.
  revert cur. induction a as [|c a IH]; intros cur.
  - change ("" +:+ String " " b) with (String " " b). cbn [split_from].
    change (isspace " ") with true. cbv iota. fold (split b).
    now destruct (is_empty cur).
  - rewrite append_cons. cbn [split_from]. destruct (isspace c).
    + destruct (is_empty cur); now rewrite IH.
    + apply IH.
Qed.

Lemma split_space (a b : string) : split (a +:+ " " +:+ b) = split a ++ split b.
Proof. apply split_from_space. Qed.

Lemma join_snoc (l : list string) (t : string) :
  join " " (l ++ [t]) =
  match l with [] => t | _ :: _ => join " " l +:+ " " +:+ t end.
Proof.
  induction l as [|x l IH]; [reflexivity|].
  destruct l as [|y l]; [reflexivity|].
  change (join " " ((x :: y :: l) ++ [t]))
    with (x +:+ " " +:+ join " " ((y :: l) ++ [t])).
  rewrite IH.
  change (join " " (x :: y :: l)) with (x +:+ " " +:+ join " " (y :: l)).
  now rewrite !append_assoc.
Qed.

(** The tokens of the joined texts are the tokens of the texts. *)
Lemma split_join_snoc (l : list string) (t : string) :
  split (join " " (l ++ [t])) = split (join " " l) ++ split t.
Proof.
  rewrite join_snoc. destruct l as [|x l]; [reflexivity|]. apply split_space.
Qed.

(** A word without whitespace is read as one token. *)
Lemma split_from_word (cur w : string) :
  no_space w -> split_from cur w = if is_empty (cur +:+ w) then [] else [cur +:+ w].
Proof.
  unfold no_space. revert cur. induction w as [|c w IH]; intros cur H.
  - cbn [split_from]. now rewrite append_nil_r.
  - cbn in H. inversion H as [|? ? Hc Hw]; subst. cbn [split_from]. rewrite Hc.
    rewrite (IH _ Hw), append_assoc. reflexivity.
Qed.

Lemma no_space_app (a b : string) :
  no_space a -> no_space b -> no_space (a +:+ b).
Proof.
  unfold no_space. induction a as [|c a IH]; intros Ha Hb; [exact Hb|].
  rewrite append_cons. cbn in *. inversion Ha; subst.
  constructor; [assumption | now apply IH].
Qed.

(** Every token is a non-empty word without whitespace. *)
Lemma split_from_tokens (s cur : string) :
  no_space cur ->
  Forall (fun w => no_space w /\ w <> "") (split_from cur s).
Proof.
  revert cur. induction s as [|c s IH]; intros cur Hcur; cbn [split_from].
  - destruct cur; cbn; [constructor|]. constructor; [|constructor].
    split; [exact Hcur | discriminate].
  - destruct (isspace c) eqn:E.
    + destruct cur as [|d cur]; cbn [is_empty].
      * apply IH. constructor.
      * constructor; [split; [exact Hcur | discriminate]|]. apply IH. constructor.
    + apply IH. apply no_space_app; [exact Hcur|].
      constructor; [exact E | constructor].
Qed.

Lemma lstrip_spec (s : string) :
  lstrip s = "" \/ exists c rest, lstrip s = String c rest /\ isspace c = false.
Proof.
  induction s as [|c s IH]; cbn; [now left|].
  destruct (isspace c) eqn:E; [exact IH|]. right. now exists c, s.
Qed.

Lemma lstrip_empty (s : string) :
  lstrip s = "" <-> Forall (fun c => isspace c = true) (list_ascii_of_string s).
Proof.
  induction s as [|c s IH]; cbn; [split; [constructor | reflexivity]|].
  destruct (isspace c) eqn:E.
  - rewrite IH. split; [now constructor | now inversion 1].
  - split; [discriminate | inversion 1; congruence].
Qed.

(** [s.strip()] is empty exactly when [s] holds only whitespace. *)
Lemma strip_empty (s : string) :
  strip s = "" <-> Forall (fun c => isspace c = true) (list_ascii_of_string s).
Proof.
  rewrite <- lstrip_empty. unfold strip.
  destruct (lstrip_spec s) as [H|(c & rest & H & Hc)]; rewrite H.
  - now split.
  - cbn. rewrite Hc. cbn. split; discriminate.
Qed.

End MoreStrings.

(** ** What every reachable session satisfies *)

(** Reading a field of a session through the setters. *)
Ltac session_fields :=
  cbn [sess_id created_at audio_chunks transcription_segments partial_transcriptions
       live_analysis audio_buffer is_active set_audio_chunks
       set_transcription_segments set_live_analysis set_audio_buffer set_is_active
       _update_live_analysis].

Section Invariants.
Context {Analysis : Type}.
Implicit Types (st : State) (env : Env Analysis) (s : Session).

Lemma write_at_end_eq (b : BytesIO) (data : list Byte.byte) :
  at_end b ->
  write b data = mkBytesIO (getvalue b ++ data) (length (getvalue b ++ data)).
Proof.
  unfold at_end, write. intros E. rewrite E.
  rewrite firstn_all, Nat.sub_diag, drop_ge by lia. cbn [replicate].
  now rewrite app_nil_r, length_app.
Qed.

(** [process_audio_chunk] on a session whose buffer position is at the
    end, spelled out. *)
Lemma chunk_result_explicit (sid : string) s audio_data env :
  at_end (audio_buffer s) ->
  let all := getvalue (audio_buffer s) ++ audio_data in
  let s1 :=
    set_audio_chunks
      (audio_chunks s ++ [mkChunk (now env) (Z.of_nat (length audio_data))])
      (set_audio_buffer (mkBytesIO all (length all)) s) in
  let text := _transcribe_chunk env all in
  chunk_result sid s audio_data env =
  if Z.of_nat (length all) >=? flush_threshold then
    if PyStr.truthy text then
      let segment :=
        mkSegment (now_segment env) text (seconds_of_bytes (Z.of_nat (length all))) in
      let s3 :=
        set_audio_buffer BytesIO_new
          (_update_live_analysis
             (set_transcription_segments (transcription_segments s ++ [segment]) s1)
             text) in
      (Transcribed sid segment (live_analysis s3)
         (Z.of_nat (length (transcription_segments s3))), s3)
    else (NoTranscription sid true, s1)
  else (Buffering sid (Z.of_nat (length all)) (Z.of_nat (length (audio_chunks s1))), s1).
Proof.
  intros E. cbv zeta. unfold chunk_result, flush_result, with_chunk.
  rewrite (write_at_end_eq _ audio_data E).
  cbn [audio_buffer set_audio_chunks set_audio_buffer tell getvalue read seek
       audio_chunks transcription_segments drop Nat.max].
  destruct (_ >=? flush_threshold); [|reflexivity].
  destruct (PyStr.truthy _); reflexivity.
Qed.

Lemma seconds_of_bytes_add (a b : Z) :
  (seconds_of_bytes (a + b) == seconds_of_bytes a + seconds_of_bytes b)%Q.
Proof. unfold seconds_of_bytes, Qdiv. rewrite inject_Z_plus. ring. Qed.

Lemma seconds_of_bytes_0 : (seconds_of_bytes 0 == 0)%Q.
Proof. reflexivity. Qed.

Lemma sum_durations_snoc (l : list Segment) (x : Segment) :
  (fold_right Qplus 0 (map seg_duration (l ++ [x]))
   == fold_right Qplus 0 (map seg_duration l) + seg_duration x)%Q.
Proof.
  induction l as [|y l IH]; cbn [app map fold_right]; [ring|].
  rewrite IH. ring.
Qed.

Lemma topic_loop_keeps (rules : list (string * list string)) (text : string)
      (a : LiveAnalysis) :
  word_count (topic_loop rules text a) = word_count a
  /\ speakers_detected (topic_loop rules text a) = speakers_detected a
  /\ sentiment (topic_loop rules text a) = sentiment a
  /\ action_items_detected (topic_loop rules text a) = action_items_detected a
  /\ (current_topic (topic_loop rules text a) = current_topic a
      \/ current_topic (topic_loop rules text a) ∈ map fst rules).
Proof.
  induction rules as [|[topic ws] rules IH]; cbn [topic_loop map fst].
  - repeat split. now left.
  - destruct (any_in ws text).
    + repeat split. right. apply list_elem_of_here.
    + destruct IH as (H1 & H2 & H3 & H4 & [H5|H5]); repeat split; try assumption.
      * now left.
      * right. now apply list_elem_of_further.
Qed.

(** What one update does to each field of the live analysis. *)
Lemma update_analysis_fields (a : LiveAnalysis) (t : string) :
  word_count (update_analysis a t) = word_count a + Z.of_nat (length (PyStr.split t))
  /\ speakers_detected (update_analysis a t) = speakers_detected a
  /\ sentiment (update_analysis a t) ∈ ["neutral"; "positive"; "negative"]
  /\ (current_topic (update_analysis a t) = current_topic a
      \/ current_topic (update_analysis a t) ∈ map fst keywords)
  /\ action_items_detected a <= action_items_detected (update_analysis a t)
     <= action_items_detected a + 1.
Proof.
  destruct (topic_loop_keeps keywords (PyStr.lower t)
              (set_word_count (word_count a + Z.of_nat (length (PyStr.split t))) a))
    as (H1 & H2 & H3 & H4 & H5).
  unfold update_analysis.
  repeat match goal with |- context [if ?b then _ else _] => destruct b end;
    cbn [word_count speakers_detected sentiment current_topic action_items_detected
         set_sentiment set_action_items_detected];
    rewrite ?H1, ?H2, ?H4;
    cbn [word_count speakers_detected action_items_detected set_word_count];
    (split; [reflexivity|]); (split; [reflexivity|]);
    (split; [repeat first [apply list_elem_of_here | apply list_elem_of_further]|]);
    (split; [exact H5 | lia]).
Qed.

Lemma new_session_invariant (sid : string) (created : Timestamp) :
  session_invariant (new_session sid created).
Proof.
  constructor.
  - reflexivity.
  - reflexivity.
  - reflexivity.
  - constructor.
  - reflexivity.
  - reflexivity.
  - apply list_elem_of_here.
  - apply list_elem_of_here.
  - cbn. lia.
Qed.

Lemma set_is_active_invariant (b : bool) s :
  session_invariant s -> session_invariant (set_is_active b s).
Proof. intros [? ? ? ? ? ? ? ? ?]. constructor; assumption. Qed.

Lemma chunk_result_invariant (sid : string) s audio_data env :
  session_invariant s -> session_invariant (chunk_result sid s audio_data env).2.
Proof.
  intros [Hend Hdur Hseg Htexts Hwords Hspk Hsent Htopic Hact].
  rewrite (chunk_result_explicit _ _ _ _ Hend). cbv zeta.
  set (all := getvalue (audio_buffer s) ++ audio_data).
  assert (Hbuffering :
            session_invariant
              (set_audio_chunks
                 (audio_chunks s ++ [mkChunk (now env) (Z.of_nat (length audio_data))])
                 (set_audio_buffer (mkBytesIO all (length all)) s))).
  { constructor; try assumption.
    - reflexivity.
    - unfold pending_seconds, segments_duration in *.
      session_fields. cbn [getvalue].
      unfold all. rewrite total_size_app, length_app, Nat2Z.inj_add.
      rewrite !seconds_of_bytes_add, Hdur.
      cbn [total_size map fold_right ck_size]. rewrite Z.add_0_r. ring.
    - session_fields.
      rewrite length_app. cbn [length]. lia. }
  destruct (_ >=? flush_threshold); [|exact Hbuffering].
  destruct (PyStr.truthy _) eqn:Etext; [|exact Hbuffering].
  cbn [snd].
  destruct (update_analysis_fields (live_analysis s) (_transcribe_chunk env all))
    as (Uw & Us & Usent & Utopic & Uact).
  constructor.
  - reflexivity.
  - unfold pending_seconds, segments_duration in *.
    session_fields. cbn [BytesIO_new getvalue length].
    rewrite sum_durations_snoc. cbn [seg_duration].
    unfold all. rewrite total_size_app, length_app, Nat2Z.inj_add.
    rewrite !seconds_of_bytes_add, Hdur.
    cbn [total_size map fold_right ck_size]. rewrite Z.add_0_r.
    rewrite seconds_of_bytes_0. ring.
  - session_fields.
    rewrite !length_app. cbn [length]. lia.
  - session_fields.
    apply Forall_app. split; [exact Htexts|]. constructor; [|constructor].
    cbn [seg_text]. intros E. rewrite E in Etext. discriminate Etext.
  - unfold full_text.
    session_fields.
    rewrite Uw, Hwords, map_app. cbn [map seg_text].
    rewrite split_join_snoc, length_app. unfold full_text. lia.
  - session_fields.
    now rewrite Us.
  - session_fields.
    exact Usent.
  - session_fields.
    destruct Utopic as [->|Hin]; [exact Htopic|].
    change (map fst keywords) with ["planning"; "technical"; "business"; "meeting"] in Hin.
    now apply list_elem_of_further.
  - session_fields. rewrite length_app. cbn [length]. lia.
Qed.

End Invariants.

(** ** Reachable states *)

Section Reachable.
Context {Analysis : Type}.
Implicit Types (st : State) (env : Env Analysis) (s : Session).

(** Where a session of the state after a call comes from. *)
Lemma run_call_sessions st (c : Call) env (sid : string) s' :
  active_sessions (run_call st c env) !! sid = Some s' ->
  active_sessions st !! sid = Some s'
  \/ (exists created, s' = new_session sid created)
  \/ (exists s audio_data,
        active_sessions st !! sid = Some s
        /\ s' = (chunk_result sid s audio_data env).2)
  \/ (exists s, active_sessions st !! sid = Some s /\ s' = set_is_active false s).
Proof.
  destruct c as [sid0|sid0 audio_data|sid0|sid0|i]; cbn [run_call].
  - unfold create_session. cbn [snd]. destruct (decide (sid0 = sid)) as [->|Hne].
    + rewrite lookup_store. intros [= <-]. right. left. now eexists.
    + rewrite (lookup_store_ne _ _ _ _ Hne). now left.
  - destruct (active_sessions st !! sid0) as [s|] eqn:E.
    + rewrite (process_audio_chunk_found _ _ _ _ _ E). cbn [snd].
      destruct (decide (sid0 = sid)) as [->|Hne].
      * rewrite lookup_store. intros [= <-]. right. right. left. now exists s, audio_data.
      * rewrite (lookup_store_ne _ _ _ _ Hne). now left.
    + rewrite (process_audio_chunk_unknown _ _ _ _ E). now left.
  - destruct (active_sessions st !! sid0) as [s|] eqn:E.
    + rewrite (get_session_summary_found _ _ _ _ E). now left.
    + rewrite (get_session_summary_unknown _ _ _ E). now left.
  - destruct (active_sessions st !! sid0) as [s|] eqn:E.
    + rewrite (end_session_found _ _ _ _ E). cbn [snd start_cleanup_thread active_sessions].
      destruct (decide (sid0 = sid)) as [->|Hne].
      * rewrite lookup_store. intros [= <-]. right. right. right. now exists s.
      * rewrite (lookup_store_ne _ _ _ _ Hne). now left.
    + rewrite (end_session_unknown _ _ _ E). now left.
  - unfold wake_cleanup_thread. destruct (cleanup_threads st !! i) as [sid0|]; [|now left].
    unfold cleanup. cbn [active_sessions].
    destruct (active_sessions st !! sid0); [|now left].
    cbn [set_active_sessions active_sessions]. intros H.
    apply lookup_delete_Some in H as [_ H]. now left.
Qed.

(** Every session registered in a reachable state satisfies the session
    invariant. *)
Lemma reachable_invariant st :
  reachable (Analysis := Analysis) st ->
  forall (sid : string) s, active_sessions st !! sid = Some s -> session_invariant s.
Proof.
  induction 1 as [|st c env Hreach IH]; intros sid s' Hs'.
  - cbn in Hs'. rewrite lookup_empty in Hs'. discriminate Hs'.
  - destruct (run_call_sessions _ _ _ _ _ Hs')
      as [H|[[created ->]|[(s & d & H & ->)|(s & H & ->)]]].
    + exact (IH _ _ H).
    + apply new_session_invariant.
    + apply chunk_result_invariant. exact (IH _ _ H).
    + apply set_is_active_invariant. exact (IH _ _ H).
Qed.



(** X3. In every reachable state a session has at most as many segments
    as chunks, no segment has an empty text, and the action items counted
    are at most the segments: the summary's [total_segments] never
    exceeds its [total_chunks]. *)
Theorem segments_bounded_by_chunks st (session_id : string) s env :
  reachable (Analysis := Analysis) st ->
  active_sessions st !! session_id = Some s ->
  exists summary,
    (get_session_summary st session_id env).1 = Return (Summary summary)
    /\ 0 <= sum_total_segments summary <= sum_total_chunks summary
    /\ 0 <= action_items_detected (sum_live_analysis summary)
         <= sum_total_segments summary
    /\ Forall (fun segment => seg_text segment <> "") (transcription_segments s).
Proof.
  intros Hreach Hs.
  destruct (reachable_invariant _ Hreach _ _ Hs) as [_ _ Hseg Htexts _ _ _ _ Hact].
  exists (summary_of session_id s env). rewrite (get_session_summary_found _ _ _ _ Hs).
  split; [reflexivity|].
  cbn [summary_of sum_total_segments sum_total_chunks sum_live_analysis].
  split; [lia|]. split; [exact Hact | exact Htexts].
Qed.

(** X4. In every reachable state the live [word_count] of a session is
    the number of whitespace-separated words of its full transcription,
    as the summary returns the two. *)
Theorem word_count_is_transcript_words st (session_id : string) s env :
  reachable (Analysis := Analysis) st ->
  active_sessions st !! session_id = Some s ->
  exists summary,
    (get_session_summary st session_id env).1 = Return (Summary summary)
    /\ word_count (sum_live_analysis summary)
       = Z.of_nat (length (PyStr.split (sum_full_transcription summary))).
Proof.
  intros Hreach Hs.
  destruct (reachable_invariant _ Hreach _ _ Hs) as [_ _ _ _ Hwords _ _ _ _].
  exists (summary_of session_id s env). rewrite (get_session_summary_found _ _ _ _ Hs).
  split; [reflexivity | exact Hwords].
Qed.

(** X5. In every reachable state the live analysis of a session has
    [speakers_detected] 0 (nothing ever writes it), a sentiment among
    neutral, positive, negative, and a topic among Unknown, planning,
    technical, business, meeting. *)
Theorem live_analysis_ranges st (session_id : string) s :
  reachable (Analysis := Analysis) st ->
  active_sessions st !! session_id = Some s ->
  speakers_detected (live_analysis s) = 0
  /\ sentiment (live_analysis s) ∈ ["neutral"; "positive"; "negative"]
  /\ current_topic (live_analysis s)
     ∈ ["Unknown"; "planning"; "technical"; "business"; "meeting"].
Proof.
  intros Hreach Hs.
  destruct (reachable_invariant _ Hreach _ _ Hs) as [_ _ _ _ _ Hspk Hsent Htopic _].
  now repeat split.
Qed.

End Reachable.

(** ** Runs of chunks *)

Section ChunkRuns.
Context {Analysis : Type}.
Implicit Types (st : State) (env : Env Analysis) (s : Session).

(** X6. A call of [process_audio_chunk] on a registered session only
    appends: the chunks and the segments it had are kept, in order, as a
    prefix of the new ones; at most one segment is added; the word count
    and the action items do not decrease; the creation time is kept. *)
Theorem process_audio_chunk_only_appends st (session_id : string) s
        (audio_data : list Byte.byte) env :
  active_sessions st !! session_id = Some s ->
  exists s',
    active_sessions (process_audio_chunk st session_id audio_data env).2 !! session_id
    = Some s'
    /\ audio_chunks s `prefix_of` audio_chunks s'
    /\ length (audio_chunks s') = S (length (audio_chunks s))
    /\ transcription_segments s `prefix_of` transcription_segments s'
    /\ (length (transcription_segments s') <= S (length (transcription_segments s)))%nat
    /\ word_count (live_analysis s) <= word_count (live_analysis s')
    /\ action_items_detected (live_analysis s)
       <= action_items_detected (live_analysis s')
    /\ created_at s' = created_at s.
Proof.
  intros Hs. rewrite (process_audio_chunk_found _ _ _ _ _ Hs). cbn [snd].
  eexists. split; [apply lookup_store|].
  split; [rewrite chunk_result_audio_chunks; now apply prefix_app_r|].
  split; [rewrite chunk_result_audio_chunks, length_app; cbn [length]; lia|].
  unfold chunk_result, flush_result, with_chunk. cbn [read seek getvalue tell].
  session_fields.
  destruct (_ >=? flush_threshold).
  - match goal with |- context [PyStr.truthy ?t] =>
      destruct (PyStr.truthy t);
      destruct (update_analysis_fields (live_analysis s) t) as (Uw & _ & _ & _ & Ua)
    end; cbn [snd]; session_fields.
    + rewrite length_app. cbn [length].
      split; [now apply prefix_app_r|]. split; [lia|]. split; [lia|].
      split; [lia | reflexivity].
    + split; [reflexivity|]. split; [lia|]. split; [lia|].
      split; [lia | reflexivity].
  - cbn [snd]. unfold with_chunk. session_fields.
    split; [reflexivity|]. split; [lia|]. split; [lia|].
    split; [lia | reflexivity].
Qed.

(** X7. [process_audio_chunk] touches one session only: every other id
    keeps its session, the id is registered afterwards exactly if it was
    before, and the cleanup threads and the calls of the analysis are
    unchanged. *)
Theorem process_audio_chunk_frame st (session_id : string)
        (audio_data : list Byte.byte) env :
  let st' := (process_audio_chunk st session_id audio_data env).2 in
  (forall other, other <> session_id ->
     active_sessions st' !! other = active_sessions st !! other)
  /\ (is_Some (active_sessions st' !! session_id)
      <-> is_Some (active_sessions st !! session_id))
  /\ cleanup_threads st' = cleanup_threads st
  /\ analyze_calls st' = analyze_calls st.
Proof.
  cbv zeta. destruct (active_sessions st !! session_id) as [s|] eqn:E.
  - rewrite (process_audio_chunk_found _ _ _ _ _ E). cbn [snd].
    split; [intros other Hne; apply lookup_store_ne; congruence|].
    rewrite lookup_store. repeat split; eauto.
  - rewrite (process_audio_chunk_unknown _ _ _ _ E). cbn [snd]. rewrite E.
    repeat split; auto.
Qed.

(** What a call does when it produces no segment: the bytes are added to
    the buffer and the chunk is recorded. *)
Lemma chunk_result_quiet (sid : string) s audio_data env :
  at_end (audio_buffer s) ->
  Z.of_nat (length (getvalue (audio_buffer s) ++ audio_data)) < flush_threshold
  \/ _transcribe_chunk env (getvalue (audio_buffer s) ++ audio_data) = "" ->
  let r := chunk_result sid s audio_data env in
  at_end (audio_buffer r.2)
  /\ getvalue (audio_buffer r.2) = getvalue (audio_buffer s) ++ audio_data
  /\ transcription_segments r.2 = transcription_segments s
  /\ live_analysis r.2 = live_analysis s
  /\ (Z.of_nat (length (getvalue (audio_buffer s) ++ audio_data)) < flush_threshold ->
      r.1 = Buffering sid (Z.of_nat (length (getvalue (audio_buffer s) ++ audio_data)))
                      (Z.of_nat (length (audio_chunks s)) + 1))
  /\ (flush_threshold <= Z.of_nat (length (getvalue (audio_buffer s) ++ audio_data)) ->
      r.1 = NoTranscription sid true).
Proof.
  intros Hend Hquiet. cbv zeta. rewrite (chunk_result_explicit _ _ _ _ Hend). cbv zeta.
  destruct (Z.geb_spec (Z.of_nat (length (getvalue (audio_buffer s) ++ audio_data)))
                       flush_threshold) as [Hge|Hlt].
  - destruct Hquiet as [Hlt|Hempty]; [lia|]. rewrite Hempty.
    cbn [PyStr.truthy PyStr.is_empty negb fst snd]. session_fields.
    split; [reflexivity|]. split; [reflexivity|]. split; [reflexivity|].
    split; [reflexivity|]. split; [intros; lia | reflexivity].
  - cbn [fst snd]. session_fields.
    split; [reflexivity|]. split; [reflexivity|]. split; [reflexivity|].
    split; [reflexivity|]. split; [|intros; lia].
    intros _. f_equal. rewrite (length_app (audio_chunks s)). cbn [length]. lia.
Qed.

Lemma bytes_received_nonneg (calls : list (list Byte.byte * Env Analysis)) :
  0 <= bytes_received calls.
Proof.
  unfold bytes_received. induction calls as [|c calls IH]; cbn [map fold_right]; lia.
Qed.

(** X8. While the bytes received stay below the threshold nothing is
    transcribed: starting from a session of a reachable state, a list of
    calls whose bytes, added to those waiting, stay below 96000 answers
    [buffering] every time, whatever the transcription service would
    say, and leaves the buffer holding the old bytes followed by all the
    chunks in order, with the segments and the live analysis untouched. *)
Theorem chunks_below_threshold_buffer (calls : list (list Byte.byte * Env Analysis)) :
  forall st (session_id : string) s,
    reachable (Analysis := Analysis) st ->
    active_sessions st !! session_id = Some s ->
    Z.of_nat (length (getvalue (audio_buffer s))) + bytes_received calls
    < flush_threshold ->
    Forall (fun answer => exists size count,
                answer = Return (Buffering session_id size count)
                /\ size < flush_threshold)
           (chunk_answers st session_id calls)
    /\ exists s',
        active_sessions (process_chunks st session_id calls) !! session_id = Some s'
        /\ getvalue (audio_buffer s') = getvalue (audio_buffer s) ++ concat calls.*1
        /\ transcription_segments s' = transcription_segments s
        /\ live_analysis s' = live_analysis s.
Proof.
  induction calls as [|[audio_data env] calls IH]; intros st sid s Hreach Hs Hlow.
  - split; [constructor|]. exists s. cbn. now rewrite app_nil_r.
  - pose proof (bytes_received_nonneg calls) as Hpos.
    assert (Hhere : Z.of_nat (length (getvalue (audio_buffer s) ++ audio_data))
                    < flush_threshold).
    { rewrite length_app. unfold bytes_received in *. cbn [map fold_right fst] in Hlow.
      lia. }
    destruct (reachable_invariant _ Hreach _ _ Hs) as [Hend _ _ _ _ _ _ _ _].
    destruct (chunk_result_quiet sid s audio_data env Hend (or_introl Hhere))
      as (_ & Hv & Hseg & Hlive & Hans & _).
    pose proof (reachable_call st (CallChunk sid audio_data) env Hreach) as Hreach'.
    cbn [run_call] in Hreach'.
    cbn [chunk_answers process_chunks].
    revert Hreach'. rewrite (process_audio_chunk_found _ _ _ _ _ Hs). cbn [fst snd].
    intros Hreach'.
    destruct (IH _ sid _ Hreach' (lookup_store _ _ _)) as (Hall & s' & Hs' & Hv' & Hseg' & Hl').
    { rewrite Hv. unfold bytes_received in *. cbn [map fold_right fst] in Hlow.
      rewrite length_app in *. lia. }
    split.
    + constructor; [|exact Hall]. rewrite (Hans Hhere). eauto.
    + exists s'. split; [exact Hs'|]. rewrite Hv', Hseg', Hl', Hv, Hseg, Hlive.
      cbn [fmap list_fmap fst concat]. now rewrite <- app_assoc.
Qed.

(** X9. When the transcription never gives a text (it fails, or answers
    nothing, in every call), no segment is ever recorded and the buffer
    is never emptied: after any list of calls it holds every byte
    received, in order, and once it holds 96000 bytes or more every call
    answers [no_transcription] with [buffer_cleared] true. *)
Theorem silent_transcription_never_empties_buffer
        (calls : list (list Byte.byte * Env Analysis)) :
  forall st (session_id : string) s,
    reachable (Analysis := Analysis) st ->
    active_sessions st !! session_id = Some s ->
    Forall (fun call => forall audio, _transcribe_chunk call.2 audio = "") calls ->
    (flush_threshold <= Z.of_nat (length (getvalue (audio_buffer s))) ->
     Forall (fun answer => answer = Return (NoTranscription session_id true))
            (chunk_answers st session_id calls))
    /\ exists s',
        active_sessions (process_chunks st session_id calls) !! session_id = Some s'
        /\ getvalue (audio_buffer s') = getvalue (audio_buffer s) ++ concat calls.*1
        /\ transcription_segments s' = transcription_segments s
        /\ live_analysis s' = live_analysis s.
Proof.
  induction calls as [|[audio_data env] calls IH]; intros st sid s Hreach Hs Hsilent.
  - split; [constructor|]. exists s. cbn. now rewrite app_nil_r.
  - inversion Hsilent as [|? ? Hcall Hrest]; subst. cbn [snd] in Hcall.
    destruct (reachable_invariant _ Hreach _ _ Hs) as [Hend _ _ _ _ _ _ _ _].
    destruct (chunk_result_quiet sid s audio_data env Hend (or_intror (Hcall _)))
      as (_ & Hv & Hseg & Hlive & _ & Hans).
    pose proof (reachable_call st (CallChunk sid audio_data) env Hreach) as Hreach'.
    cbn [run_call] in Hreach'.
    cbn [chunk_answers process_chunks].
    revert Hreach'. rewrite (process_audio_chunk_found _ _ _ _ _ Hs). cbn [fst snd].
    intros Hreach'.
    destruct (IH _ sid _ Hreach' (lookup_store _ _ _) Hrest)
      as (Hall & s' & Hs' & Hv' & Hseg' & Hl').
    split.
    + intros Hfull. constructor.
      * rewrite Hans; [reflexivity|]. rewrite length_app. lia.
      * apply Hall. rewrite Hv, length_app. lia.
    + exists s'. split; [exact Hs'|]. rewrite Hv', Hseg', Hl', Hv, Hseg, Hlive.
      cbn [fmap list_fmap fst concat]. now rewrite <- app_assoc.
Qed.

(** X10. The threshold decides the answer. For a session of a reachable
    state holding [n] bytes after the new chunk: below 96000 the answer
    is [buffering]; from 96000 on it is [no_transcription] when the
    transcription is empty, and otherwise [transcribed], with a segment
    whose duration is [n / 32000] seconds, made of all the buffered
    bytes, and the buffer is replaced by an empty one. *)
Theorem threshold_decides_answer st (session_id : string) s
        (audio_data : list Byte.byte) env :
  reachable (Analysis := Analysis) st ->
  active_sessions st !! session_id = Some s ->
  let n := Z.of_nat (length (getvalue (audio_buffer s)) + length audio_data) in
  let text := _transcribe_chunk env (getvalue (audio_buffer s) ++ audio_data) in
  let run := process_audio_chunk st session_id audio_data env in
  (n < flush_threshold ->
   run.1 = Return (Buffering session_id n (Z.of_nat (length (audio_chunks s)) + 1)))
  /\ (flush_threshold <= n -> text = "" ->
      run.1 = Return (NoTranscription session_id true))
  /\ (flush_threshold <= n -> text <> "" ->
      exists s',
        active_sessions run.2 !! session_id = Some s'
        /\ audio_buffer s' = BytesIO_new
        /\ transcription_segments s' =
           transcription_segments s
           ++ [mkSegment (now_segment env) text (seconds_of_bytes n)]
        /\ live_analysis s' = update_analysis (live_analysis s) text
        /\ run.1 = Return (Transcribed session_id
                             (mkSegment (now_segment env) text (seconds_of_bytes n))
                             (live_analysis s')
                             (Z.of_nat (length (transcription_segments s)) + 1))).
Proof.
  intros Hreach Hs. cbv zeta.
  destruct (reachable_invariant _ Hreach _ _ Hs) as [Hend _ _ _ _ _ _ _ _].
  rewrite (process_audio_chunk_found _ _ _ _ _ Hs). cbn [fst snd].
  rewrite (chunk_result_explicit _ _ _ _ Hend). cbv zeta. rewrite length_app.
  destruct (Z.geb_spec (Z.of_nat (length (getvalue (audio_buffer s)) + length audio_data))
                       flush_threshold) as [Hge|Hlt].
  - split; [intros; lia|].
    destruct (_transcribe_chunk env (getvalue (audio_buffer s) ++ audio_data))
      as [|c text] eqn:Etext.
    + split; [reflexivity | congruence].
    + cbn [PyStr.truthy PyStr.is_empty negb fst snd].
      split; [discriminate|]. intros _ _. eexists. split; [apply lookup_store|].
      session_fields. rewrite length_app. cbn [length].
      repeat split. do 2 f_equal. lia.
  - split; [|split; intros; lia]. intros _. cbn [fst]. session_fields.
    rewrite length_app. cbn [length]. do 2 f_equal. lia.
Qed.

End ChunkRuns.

(** ** Reclamation and the active list *)

Section Reclamation.
Context {Analysis : Type}.
Implicit Types (st : State) (env : Env Analysis) (s : Session).

Lemma end_session_state st (sid : string) s env :
  active_sessions st !! sid = Some s ->
  active_sessions (end_session st sid env).2
  = <[sid := set_is_active false s]> (active_sessions st)
  /\ cleanup_threads (end_session st sid env).2 = cleanup_threads st ++ [sid].
Proof. intros Hs. rewrite (end_session_found _ _ _ _ Hs). now split. Qed.

(** X11. The life of an ended session. [end_session] transcribes nothing:
    the session keeps its buffer, chunks and segments and only becomes
    inactive, and its summary can still be read. When the cleanup thread
    started by that call wakes up, the id is removed, the other sessions
    and the other pending threads are untouched, and every method then
    answers that the session is not found. *)
Theorem ended_session_is_reclaimed st (session_id : string) s env env'
        (audio_data : list Byte.byte) :
  active_sessions st !! session_id = Some s ->
  let ended := (end_session st session_id env).2 in
  let woken := wake_cleanup_thread (length (cleanup_threads st)) ended in
  let gone : Response Analysis :=
    ErrorDict ("Session " +:+ session_id +:+ " not found") in
  active_sessions ended !! session_id = Some (set_is_active false s)
  /\ (get_session_summary ended session_id env').1
     = Return (Summary (summary_of session_id s env'))
  /\ active_sessions woken !! session_id = None
  /\ (forall other, other <> session_id ->
        active_sessions woken !! other = active_sessions st !! other)
  /\ cleanup_threads woken = cleanup_threads st
  /\ (get_session_summary woken session_id env').1 = Return gone
  /\ (process_audio_chunk woken session_id audio_data env').1 = Return gone
  /\ (end_session woken session_id env').1 = Return gone.
Proof.
  intros Hs. cbv zeta. destruct (end_session_state st session_id s env Hs) as [Hreg Hthr].
  set (ended := (end_session st session_id env).2) in *.
  assert (Hended : active_sessions ended !! session_id = Some (set_is_active false s))
    by (rewrite Hreg; apply lookup_insert_eq).
  assert (Hwoken : active_sessions
                     (wake_cleanup_thread (length (cleanup_threads st)) ended)
                   = delete session_id (active_sessions ended)
                   /\ cleanup_threads
                        (wake_cleanup_thread (length (cleanup_threads st)) ended)
                      = cleanup_threads st).
  { unfold wake_cleanup_thread. rewrite Hthr.
    rewrite (list_lookup_middle _ [] session_id) by reflexivity.
    rewrite delete_middle, app_nil_r. unfold cleanup. cbn [active_sessions].
    rewrite Hended. now split. }
  destruct Hwoken as [Hw1 Hw2].
  assert (Hnone : active_sessions
                    (wake_cleanup_thread (length (cleanup_threads st)) ended)
                  !! session_id = None)
    by (rewrite Hw1; apply lookup_delete_eq).
  split; [exact Hended|].
  split.
  { rewrite (get_session_summary_found _ _ _ _ Hended). reflexivity. }
  split; [exact Hnone|].
  split.
  { intros other Hne. rewrite Hw1, lookup_delete_ne, Hreg by congruence.
    apply lookup_insert_ne. congruence. }
  split; [exact Hw2|].
  rewrite (get_session_summary_unknown _ _ _ Hnone),
    (process_audio_chunk_unknown _ _ _ _ Hnone), (end_session_unknown _ _ _ Hnone).
  now repeat split.
Qed.

(** X12. A cleanup thread knows its session by the id alone. When an id
    is ended and then created again before the thread wakes up, the
    thread removes the new, active session. *)
Theorem cleanup_removes_recreated_session st (session_id : string) s env env' :
  active_sessions st !! session_id = Some s ->
  let ended := (end_session st session_id env).2 in
  let recreated := (create_session ended session_id env').2 in
  let woken := wake_cleanup_thread (length (cleanup_threads st)) recreated in
  active_sessions recreated !! session_id = Some (new_session session_id (now env'))
  /\ is_active (new_session session_id (now env')) = true
  /\ active_sessions woken !! session_id = None.
Proof.
  intros Hs. cbv zeta. destruct (end_session_state st session_id s env Hs) as [Hreg Hthr].
  set (ended := (end_session st session_id env).2) in *.
  unfold create_session. cbn [snd].
  split; [apply lookup_store|]. split; [reflexivity|].
  unfold wake_cleanup_thread, store. cbn [cleanup_threads set_active_sessions].
  rewrite Hthr, (list_lookup_middle _ [] session_id) by reflexivity.
  unfold cleanup. cbn [active_sessions set_active_sessions]. rewrite lookup_insert_eq.
  cbn [set_active_sessions active_sessions]. apply lookup_delete_eq.
Qed.

Lemma active_list_elem st (sid : string) :
  sid ∈ get_active_sessions st
  <-> exists s, active_sessions st !! sid = Some s /\ is_active s = true.
Proof.
  unfold get_active_sessions. rewrite list_elem_of_fmap. split.
  - intros ([k s] & -> & Hin). apply elem_of_map_to_list in Hin.
    apply map_lookup_filter_Some in Hin as [Hs Hact]. now exists s.
  - intros (s & Hs & Hact). exists (sid, s). split; [reflexivity|].
    apply elem_of_map_to_list. now apply map_lookup_filter_Some.
Qed.

(** X13. [get_active_sessions] lists, without repetition, exactly the
    registered ids whose session is active. A created id is listed; an
    id is never listed after [end_session], although the session stays
    registered until its cleanup; ending one id does not change whether
    another is listed. *)
Theorem active_list_membership st (session_id : string) env :
  (forall sid, sid ∈ get_active_sessions st
     <-> exists s, active_sessions st !! sid = Some s /\ is_active s = true)
  /\ NoDup (get_active_sessions st)
  /\ session_id ∈ get_active_sessions (create_session st session_id env).2
  /\ ~ (session_id ∈ get_active_sessions (end_session st session_id env).2)
  /\ (forall other, other <> session_id ->
        (other ∈ get_active_sessions (end_session st session_id env).2
         <-> other ∈ get_active_sessions st)).
Proof.
  split; [intros sid; apply active_list_elem|].
  split; [apply NoDup_fst_map_to_list|].
  split.
  { apply active_list_elem. eexists. unfold create_session. cbn [snd].
    split; [apply lookup_store | reflexivity]. }
  destruct (active_sessions st !! session_id) as [s|] eqn:E.
  - destruct (end_session_state st session_id s env E) as [Hreg _]. split.
    + rewrite active_list_elem, Hreg, lookup_insert_eq.
      intros (s' & [= <-] & Hact). discriminate Hact.
    + intros other Hne. rewrite !active_list_elem, Hreg, lookup_insert_ne by congruence.
      reflexivity.
  - rewrite (end_session_unknown _ _ _ E). cbn [snd]. split; [|reflexivity].
    rewrite active_list_elem, E. intros (s' & [=] & _).
Qed.

End Reclamation.

(** ** The byte buffer and the transcript text *)

Section BufferAndText.
Import PyStr.

Lemma writes_at_end (chunks : list (list Byte.byte)) (b : BytesIO) :
  at_end b ->
  at_end (foldl write b chunks)
  /\ getvalue (foldl write b chunks) = getvalue b ++ concat chunks.
Proof.
  revert b. induction chunks as [|c chunks IH]; intros b Hb; cbn [foldl concat].
  - now rewrite app_nil_r.
  - destruct (write_at_end b c Hb) as [Hv Hend].
    destruct (IH _ Hend) as [H1 H2]. split; [exact H1|].
    now rewrite H2, Hv, <- app_assoc.
Qed.

(** X14. What is written is what is read: after any list of writes to a
    new buffer, [seek(0)] followed by [read()] returns the chunks
    concatenated in order, [tell()] is their total length before and
    after the read, and a write that follows the read appends at the
    end. *)
Theorem buffer_write_read (chunks : list (list Byte.byte)) (next : list Byte.byte) :
  let b := foldl write BytesIO_new chunks in
  let r := read (seek b 0) in
  r.1 = concat chunks
  /\ tell b = length (concat chunks)
  /\ tell r.2 = length (concat chunks)
  /\ getvalue (write r.2 next) = concat chunks ++ next.
Proof.
  cbv zeta. destruct (writes_at_end chunks BytesIO_new eq_refl) as [Hend Hv].
  cbn [getvalue BytesIO_new app] in Hv. rewrite read_all, Hv. cbn [fst snd tell].
  split; [reflexivity|]. split; [now rewrite Hend, Hv|]. split; [reflexivity|].
  apply (write_at_end (mkBytesIO (concat chunks) (length (concat chunks))) next).
  reflexivity.
Qed.

Lemma split_join_concat (texts : list string) :
  split (join " " texts) = concat (map split texts).
Proof.
  induction texts as [|t texts IH] using rev_ind; [reflexivity|].
  rewrite split_join_snoc, IH, map_app, concat_app. cbn [map concat].
  now rewrite app_nil_r.
Qed.

(** X15. The words of the full transcription are the words of the
    segments: joining texts with single spaces and splitting on
    whitespace gives the tokens of the texts, in order, so the number of
    words of the joined text is the sum of the numbers of words. *)
Theorem words_of_joined_texts (texts : list string) :
  split (join " " texts) = concat (map split texts)
  /\ length (split (join " " texts))
     = fold_right Nat.add 0%nat (map (fun t => length (split t)) texts).
Proof.
  split; [apply split_join_concat|]. rewrite split_join_concat.
  induction texts as [|t texts IH]; [reflexivity|].
  cbn [map concat fold_right]. now rewrite length_app, IH.
Qed.

(** Splitting never yields an empty token or a token with
    whitespace, and tokens joined by single spaces split back into
    themselves. *)
Theorem split_tokens_round_trip (text : string) (tokens : list string) :
  Forall (fun w => no_space w /\ w <> "") (split text)
  /\ (Forall (fun w => no_space w /\ w <> "") tokens ->
      split (join " " tokens) = tokens)
  /\ split (join " " (split text)) = split text.
Proof.
  assert (Htok : forall t, Forall (fun w => no_space w /\ w <> "") (split t)).
  { intros t. apply split_from_tokens. constructor. }
  assert (Hround : forall toks, Forall (fun w => no_space w /\ w <> "") toks ->
                                split (join " " toks) = toks).
  { intros toks Hclean. rewrite (split_join_concat toks).
    induction Hclean as [|w toks [Hw Hne] Hclean IH]; [reflexivity|].
    cbn [map concat]. rewrite IH. unfold split at 1.
    rewrite (split_from_word "" w Hw). change ("" +:+ w) with w.
    destruct w; [congruence | reflexivity]. }
  split; [apply Htok|]. split; [apply Hround|]. apply Hround, Htok.
Qed.

End BufferAndText.

Section BlankTranscript.
Context {Analysis : Type}.
Implicit Types (st : State) (env : Env Analysis) (s : Session).


End BlankTranscript.

(** ** The WebSocket handler *)

Section HandlerProps.
Context {Analysis : Type}.
Variable b64decode : string -> outcome (list Byte.byte).
Implicit Types (h : Handler) (ws : Websocket) (data : Message)
         (henv : HandlerEnv Analysis) (env : Env Analysis).

Ltac dispatch H :=
  unfold process_message; cbv zeta; rewrite ?H;
  repeat (case_decide; try congruence).

Lemma end_session_returns (st : State) (sid : string) env :
  exists r, end_session st sid env = (Return r, (end_session st sid env).2).
Proof.
  destruct (active_sessions st !! sid) as [s|] eqn:E.
  - rewrite (end_session_found _ _ _ _ E). eauto.
  - rewrite (end_session_unknown _ _ _ E). eauto.
Qed.

Lemma get_session_summary_returns (st : State) (sid : string) env :
  exists r, get_session_summary st sid env
            = (Return r, (get_session_summary st sid env).2)
            /\ active_sessions (get_session_summary st sid env).2 = active_sessions st
            /\ cleanup_threads (get_session_summary st sid env).2 = cleanup_threads st.
Proof.
  destruct (active_sessions st !! sid) as [s|] eqn:E.
  - rewrite (get_session_summary_found _ _ _ _ E). eauto.
  - rewrite (get_session_summary_unknown _ _ _ E). eauto.
Qed.

Lemma process_audio_chunk_returns (st : State) (sid : string) audio_data env :
  exists r, process_audio_chunk st sid audio_data env
            = (Return r, (process_audio_chunk st sid audio_data env).2).
Proof.
  destruct (active_sessions st !! sid) as [s|] eqn:E.
  - rewrite (process_audio_chunk_found _ _ _ _ _ E). eauto.
  - rewrite (process_audio_chunk_unknown _ _ _ _ E). eauto.
Qed.

(** X17. A message whose type is missing or is none of [start_session],
    [audio_chunk], [end_session], [get_summary] is answered with the
    error "Unknown message type: ..." and changes nothing, neither in the
    service nor in the association of connections to sessions. *)
Theorem unknown_message_type_changes_nothing h ws data henv :
  msg_type data <> Some "start_session" ->
  msg_type data <> Some "audio_chunk" ->
  msg_type data <> Some "end_session" ->
  msg_type data <> Some "get_summary" ->
  process_message b64decode h ws data henv
  = (HandlerError ("Unknown message type: " +:+ format_option (msg_type data)), h).
Proof.
  intros H1 H2 H3 H4. unfold process_message. cbv zeta.
  repeat (case_decide; try congruence).
Qed.

(** X18. A connection with no session. When the connection is associated
    with no session id, or with the empty id, [audio_chunk] and
    [end_session] are answered "No active session" and [get_summary]
    without a usable [session_id] is answered "No session specified",
    with no change. This is what happens after [start_session] with the
    id "": the session "" is registered and active, yet the connection
    cannot reach it, and closing the connection neither ends it nor
    removes the association. *)
Theorem connection_without_session h ws data henv env :
  truthy_id (clients h !! ws) = None ->
  (msg_type data = Some "audio_chunk" \/ msg_type data = Some "end_session" ->
   process_message b64decode h ws data henv = (HandlerError "No active session", h))
  /\ (msg_type data = Some "get_summary" -> truthy_id (msg_session_id data) = None ->
      process_message b64decode h ws data henv = (HandlerError "No session specified", h))
  /\ cleanup_client h ws env = h
  /\ (let started :=
        (process_message b64decode h ws (mkMessage (Some "start_session") (Some "") None) henv).2 in
      truthy_id (clients started !! ws) = None
      /\ clients started !! ws = Some ""
      /\ active_sessions (transcription_service started) !! ""
         = Some (new_session "" (now (service_env henv)))).
Proof.
  intros Hnone. split; [|split; [|split]].
  - intros [H|H]; dispatch H.
    + unfold handler_process_audio. now rewrite Hnone.
    + unfold handler_end_session. now rewrite Hnone.
  - intros H Hmsg. dispatch H. unfold handler_get_summary, or_else.
    rewrite Hnone. now rewrite Hmsg.
  - unfold cleanup_client. now rewrite Hnone.
  - cbv zeta. unfold process_message. cbv zeta. cbn [msg_type].
    rewrite decide_True by reflexivity.
    unfold handler_start_session, create_session. cbn [msg_session_id snd clients
      transcription_service].
    rewrite lookup_insert_eq. split; [reflexivity|]. split; [reflexivity|].
    apply lookup_store.
Qed.

(** X19. A second [start_session] on a connection abandons the first
    session. After two [start_session] messages with different ids on one
    connection and the closing of the connection, the second session is
    ended but the first is still registered and active, with no cleanup
    thread started for it. *)
Theorem second_start_abandons_first h ws (first second : string) henv henv' env :
  first <> second -> second <> "" ->
  let m1 := mkMessage (Some "start_session") (Some first) None in
  let m2 := mkMessage (Some "start_session") (Some second) None in
  let h1 := (process_message b64decode h ws m1 henv).2 in
  let h2 := (process_message b64decode h1 ws m2 henv').2 in
  let closed := cleanup_client h2 ws env in
  clients h2 !! ws = Some second
  /\ clients closed !! ws = None
  /\ active_sessions (transcription_service closed) !! first
     = Some (new_session first (now (service_env henv)))
  /\ first ∈ get_active_sessions (transcription_service closed)
  /\ active_sessions (transcription_service closed) !! second
     = Some (set_is_active false (new_session second (now (service_env henv'))))
  /\ cleanup_threads (transcription_service closed)
     = cleanup_threads (transcription_service h) ++ [second].
Proof.
  intros Hne Hsecond. cbv zeta. unfold process_message. cbv zeta. cbn [msg_type].
  rewrite !decide_True by reflexivity.
  unfold handler_start_session, create_session.
  cbn [msg_session_id snd fst clients transcription_service created_at].
  assert (Hassoc : truthy_id
                     (<[ws:=second]> (<[ws:=first]> (clients h)) !! ws) = Some second).
  { rewrite lookup_insert_eq. cbn. destruct second; [congruence | reflexivity]. }
  unfold cleanup_client. cbn [clients transcription_service]. rewrite Hassoc.
  cbn [clients transcription_service].
  assert (Hs2 : active_sessions
                  (store second (new_session second (now (service_env henv')))
                     (store first (new_session first (now (service_env henv)))
                        (transcription_service h))) !! second
                = Some (new_session second (now (service_env henv'))))
    by apply lookup_store.
  destruct (end_session_state _ _ _ env Hs2) as [Hreg Hthr].
  split; [apply lookup_insert_eq|]. split; [apply lookup_delete_eq|].
  assert (Hfirst : active_sessions
                     (end_session
                        (store second (new_session second (now (service_env henv')))
                           (store first (new_session first (now (service_env henv)))
                              (transcription_service h))) second env).2 !! first
                   = Some (new_session first (now (service_env henv)))).
  { rewrite Hreg, lookup_insert_ne by congruence.
    rewrite lookup_store_ne by congruence. apply lookup_store. }
  split; [exact Hfirst|].
  split; [apply active_list_elem; eexists; split; [exact Hfirst | reflexivity]|].
  split; [rewrite Hreg; apply lookup_insert_eq|].
  rewrite Hthr. reflexivity.
Qed.

(** X20. The [end_session] message keeps the connection associated with
    its session. So the closing of the connection ends the same session a
    second time: two cleanup threads are started for it, and an
    [audio_chunk] sent in between is still processed. *)
Theorem end_message_then_close_ends_twice h ws (session_id : string) s data
        henv env :
  clients h !! ws = Some session_id -> session_id <> "" ->
  active_sessions (transcription_service h) !! session_id = Some s ->
  msg_type data = Some "end_session" ->
  let ended := process_message b64decode h ws data henv in
  let closed := cleanup_client ended.2 ws env in
  ended.1 = Typed "session_ended" (Summary (summary_of session_id s (service_env henv)))
  /\ clients ended.2 !! ws = Some session_id
  /\ active_sessions (transcription_service ended.2) !! session_id
     = Some (set_is_active false s)
  /\ clients closed !! ws = None
  /\ cleanup_threads (transcription_service closed)
     = cleanup_threads (transcription_service h) ++ [session_id; session_id].
Proof.
  intros Hws Hne Hs Htype. cbv zeta.
  assert (Hassoc : truthy_id (clients h !! ws) = Some session_id).
  { rewrite Hws. cbn. destruct session_id; [congruence | reflexivity]. }
  dispatch Htype. unfold handler_end_session. rewrite Hassoc.
  rewrite (end_session_found _ _ _ _ Hs). cbn [fst snd clients transcription_service].
  split; [reflexivity|]. split; [exact Hws|].
  split; [cbn [start_cleanup_thread active_sessions]; apply lookup_store|].
  unfold cleanup_client. cbn [clients transcription_service]. rewrite Hassoc.
  cbn [clients transcription_service]. split; [apply lookup_delete_eq|].
  match goal with |- context [end_session ?st0 _ _] =>
    assert (Hagain : active_sessions st0 !! session_id = Some (set_is_active false s))
      by (cbn [start_cleanup_thread active_sessions]; apply lookup_store);
    destruct (end_session_state st0 session_id _ env Hagain) as [_ Hthr]
  end.
  rewrite Hthr. cbn [start_cleanup_thread cleanup_threads store set_active_sessions
                     log_call].
  now rewrite <- app_assoc.
Qed.

(** X21. [get_summary] prefers the session of the connection. When the
    connection is associated with a non-empty id, the [session_id] of the
    message is ignored; the answer is the service's answer for the
    associated id with the type [session_summary] added, also when that
    answer is an error, as after the session was removed. *)
Theorem get_summary_prefers_connection h ws (session_id : string) data henv :
  clients h !! ws = Some session_id -> session_id <> "" ->
  msg_type data = Some "get_summary" ->
  let answer := get_session_summary (transcription_service h) session_id
                                    (service_env henv) in
  (exists r, answer.1 = Return r
             /\ process_message b64decode h ws data henv
                = (Typed "session_summary" r, mkHandler answer.2 (clients h)))
  /\ (active_sessions (transcription_service h) !! session_id = None ->
      process_message b64decode h ws data henv
      = (Typed "session_summary"
               (ErrorDict ("Session " +:+ session_id +:+ " not found")), h)).
Proof.
  intros Hws Hne Htype. cbv zeta.
  assert (Hassoc : truthy_id (or_else (clients h !! ws) (msg_session_id data))
                   = Some session_id).
  { unfold or_else. rewrite Hws. cbn. destruct session_id; [congruence | reflexivity]. }
  split.
  - destruct (get_session_summary_returns (transcription_service h) session_id
                (service_env henv)) as (r & Hr & _).
    exists r. split; [now rewrite Hr|].
    dispatch Htype. unfold handler_get_summary. rewrite Hassoc, Hr. reflexivity.
  - intros Hnone. dispatch Htype. unfold handler_get_summary.
    rewrite Hassoc, (get_session_summary_unknown _ _ _ Hnone). now destruct h.
Qed.

(** A message changes the association of its own connection only. *)
Lemma process_message_other_clients h ws data henv (other : Websocket) :
  other <> ws ->
  clients (process_message b64decode h ws data henv).2 !! other = clients h !! other.
Proof.
  intros Hne. unfold process_message. cbv zeta.
  repeat case_decide.
  - unfold handler_start_session, create_session. cbn [snd clients].
    apply lookup_insert_ne. congruence.
  - unfold handler_process_audio. destruct (truthy_id _); [|reflexivity].
    destruct (b64decode _); [|reflexivity].
    destruct (process_audio_chunk _ _ _ _) as [[r|e] st]; reflexivity.
  - unfold handler_end_session. destruct (truthy_id _); [|reflexivity].
    destruct (end_session _ _ _) as [[r|e] st]; reflexivity.
  - unfold handler_get_summary. destruct (truthy_id _); [|reflexivity].
    destruct (get_session_summary _ _ _) as [[r|e] st]; reflexivity.
  - reflexivity.
Qed.

Lemma handle_messages_run h ws (frames : list (option Message * HandlerEnv Analysis)) :
  length (handle_messages b64decode h ws frames).1 = length frames
  /\ forall other, other <> ws ->
       clients (handle_messages b64decode h ws frames).2 !! other = clients h !! other.
Proof.
  revert h. induction frames as [|[frame henv] frames IH]; intros h.
  - now split.
  - cbn [handle_messages].
    destruct frame as [data|].
    + destruct (process_message b64decode h ws data henv) as [reply h1] eqn:E1.
      destruct (IH h1) as [Hlen Hother].
      destruct (handle_messages b64decode h1 ws frames) as [replies h2].
      cbn [fst snd length] in *. split; [now rewrite Hlen|].
      intros other Hne. rewrite (Hother other Hne).
      pose proof (process_message_other_clients h ws data henv other Hne) as H.
      now rewrite E1 in H.
    + destruct (IH h) as [Hlen Hother].
      destruct (handle_messages b64decode h ws frames) as [replies h2].
      cbn [fst snd length] in *. split; [now rewrite Hlen | exact Hother].
Qed.

(** X22. Closing a connection ends its session. Whatever frames a
    connection sent, valid or not, it got one reply per frame; when it
    closes, the associations of the other connections are as before, the
    connection itself is associated with no session (or with the empty
    id, which is never removed), and the session it was last associated
    with, if its id is not empty and it is still registered, is inactive
    and no longer listed as active. *)
Theorem closing_connection_ends_session h ws
        (frames : list (option Message * HandlerEnv Analysis)) env :
  let run := handle_messages b64decode h ws frames in
  let closed := handle_client b64decode h ws frames env in
  length closed.1 = length frames
  /\ (forall other, other <> ws -> clients closed.2 !! other = clients h !! other)
  /\ (clients closed.2 !! ws = None \/ clients closed.2 !! ws = Some "")
  /\ (forall session_id s,
        clients run.2 !! ws = Some session_id -> session_id <> "" ->
        active_sessions (transcription_service run.2) !! session_id = Some s ->
        clients closed.2 !! ws = None
        /\ active_sessions (transcription_service closed.2) !! session_id
           = Some (set_is_active false s)
        /\ ~ (session_id ∈ get_active_sessions (transcription_service closed.2))).
Proof.
  cbv zeta. unfold handle_client.
  destruct (handle_messages_run h ws frames) as [Hlen Hother].
  destruct (handle_messages b64decode h ws frames) as [replies h1].
  cbn [fst snd] in *. split; [exact Hlen|].
  unfold cleanup_client.
  destruct (clients h1 !! ws) as [sid|] eqn:Ews; cbn [truthy_id].
  - destruct sid as [|c sid]; cbn [PyStr.is_empty].
    + split; [exact Hother|]. split; [now right|].
      intros session_id s [= <-]. congruence.
    + cbn [clients transcription_service].
      split; [intros other Hne; rewrite lookup_delete_ne by congruence; now apply Hother|].
      split; [left; apply lookup_delete_eq|].
      intros session_id s [= <-] _ Hs.
      destruct (end_session_state _ _ _ env Hs) as [Hreg _].
      split; [apply lookup_delete_eq|].
      split; [rewrite Hreg; apply lookup_insert_eq|].
      rewrite active_list_elem, Hreg, lookup_insert_eq.
      intros (s' & [= <-] & Hact). discriminate Hact.
  - split; [exact Hother|]. split; [now left|]. intros session_id s [=].
Qed.

End HandlerProps.

(** ** The analysis service *)

Section AnalysisServiceProps.
Variable chat_completion : string -> outcome (option string).
Variable json_loads : string -> outcome Json.

Local Abbreviation analyze := (service_analyze_meeting chat_completion json_loads).

Lemma list_ascii_app (a b : string) :
  list_ascii_of_string (a +:+ b) = list_ascii_of_string a ++ list_ascii_of_string b.
Proof.
  induction a as [|c a IH]; [reflexivity|].
  rewrite append_cons. cbn [list_ascii_of_string app]. now rewrite IH.
Qed.

Lemma not_blank_app (t extra : string) :
  PyStr.truthy (PyStr.strip t) = true -> PyStr.truthy (PyStr.strip (t +:+ extra)) = true.
Proof.
  intros H. destruct (PyStr.strip (t +:+ extra)) eqn:E; [|reflexivity].
  apply strip_empty in E. rewrite list_ascii_app in E. apply Forall_app in E as [E _].
  apply strip_empty in E. rewrite E in H. discriminate H.
Qed.

Lemma str_take_app (n : nat) (t extra : string) :
  (n <= String.length t)%nat -> str_take n (t +:+ extra) = str_take n t.
Proof.
  revert t. induction n as [|n IH]; intros t Hlen; [reflexivity|].
  destruct t as [|c t]; [cbn in Hlen; lia|].
  rewrite append_cons. cbn [str_take]. f_equal. apply IH. cbn in Hlen. lia.
Qed.

Lemma analyze_not_blank (t : string) :
  PyStr.truthy (PyStr.strip t) = true ->
  analyze t =
  match chat_completion (user_content t) with
  | Raise _ => (_fallback_analysis t, [user_content t])
  | Return None => (_fallback_analysis t, [user_content t])
  | Return (Some arguments) =>
      match json_loads arguments with
      | Return insights => (insights, [user_content t])
      | Raise _ => (_fallback_analysis t, [user_content t])
      end
  end.
Proof.
  intros H. unfold service_analyze_meeting.
  destruct t as [|c t]; [discriminate H|]. cbn [PyStr.is_empty orb].
  unfold PyStr.truthy in H. apply negb_true_iff in H. now rewrite H.
Qed.



End AnalysisServiceProps.

(** ** The HTTP routes *)

Section RouteProps.
Variable Embedding : Type.
Variable b64decode : string -> outcome (list Byte.byte).
Variable jsonify_session : Session -> outcome string.
Implicit Types (app : App Embedding) (renv : RouteEnv Embedding)
         (st : State) (s : Session).

Lemma truthy_id_some (x : string) : x <> "" -> truthy_id (Some x) = Some x.
Proof. intros H. cbn. destruct x; [congruence | reflexivity]. Qed.

Lemma analysed_truthy s : analysed s = true -> PyStr.truthy (full_text s) = true.
Proof.
  unfold analysed. intros H. destruct (full_text s); [discriminate H | reflexivity].
Qed.

Lemma summary_text_truthy (sid : string) s (env : Env Json) :
  analysed s = true ->
  PyStr.truthy (sum_full_transcription (summary_of sid s env)) = true.
Proof. apply analysed_truthy. Qed.


(** What the end route does with a registered session whose transcript is
    not blank. *)
Lemma end_route_registered app st (session_id : string) s renv :
  realtime_service app = Some st ->
  active_sessions st !! session_id = Some s ->
  analysed s = true ->
  let ended := (end_session st session_id (route_env renv)).2 in
  let summary := summary_of session_id s (route_env renv) in
  end_realtime_session app session_id renv =
  match store_meeting (meetings app) session_id summary renv with
  | Raise e => (mkHttpResponse 500 (Failure (str_exn e)), mkApp (Some ended) (meetings app))
  | Return stored => (mkHttpResponse 200 (SummaryOk (Summary summary)),
                      mkApp (Some ended) stored)
  end.
Proof.
  intros Hst Hs Ha. cbv zeta. unfold end_realtime_session. rewrite Hst.
  rewrite (end_session_found _ _ _ _ Hs). cbn [snd].
  cbn [summary_of sum_full_transcription]. fold (analysed s). rewrite Ha.
  reflexivity.
Qed.

(** The meetings written by [store_meeting] are the old ones followed by
    one new record. *)
Lemma store_meeting_appends (stored stored' : list (Meeting Embedding))
      (session_id : string) (summary : SummaryDict Json) renv :
  PyStr.truthy (sum_full_transcription summary) = true ->
  store_meeting stored session_id summary renv = Return stored' ->
  exists m,
    stored' = stored ++ [m]
    /\ meeting_id m = "realtime_" +:+ session_id
    /\ meeting_filename m = "realtime_session_" +:+ session_id
    /\ meeting_timestamp m = sum_created_at summary
    /\ meeting_transcription m = sum_full_transcription summary
    /\ meeting_analysis m = sum_final_analysis summary
    /\ meeting_realtime_data m
       = mkRealtimeData session_id (sum_duration_seconds summary)
                        (sum_total_segments summary) (sum_live_analysis summary)
    /\ create_embedding renv (sum_full_transcription summary)
       = Return (meeting_embedding m).
Proof.
  intros Htext. unfold store_meeting. rewrite Htext.
  destruct (create_embedding renv _) as [embedding|e]; [|discriminate].
  destruct (sum_final_analysis summary) as [a|].
  - destruct (json_truthy a).
    + destruct (json_get a "summary") as [[text|]|e]; [| |discriminate].
      * destruct (json_truthy text).
        -- destruct (generate_visual_summary renv text) as [url|e]; [|discriminate].
           intros [= <-]. eexists. repeat split.
        -- intros [= <-]. eexists. repeat split.
      * intros [= <-]. eexists. repeat split.
    + intros [= <-]. eexists. repeat split.
  - intros [= <-]. eexists. repeat split.
Qed.

(** X26. The end route stores nothing for a session it does not know or
    whose transcript is blank, and still answers 200: for an unknown id
    the body carries the service's error dictionary and nothing changes;
    for a blank transcript the session is ended and the meetings file is
    left as it was. *)
Theorem end_route_stores_nothing app st (session_id : string) renv :
  realtime_service app = Some st ->
  let run := end_realtime_session app session_id renv in
  (active_sessions st !! session_id = None ->
   run = (mkHttpResponse 200
            (SummaryOk (ErrorDict ("Session " +:+ session_id +:+ " not found"))), app))
  /\ (forall s,
        active_sessions st !! session_id = Some s -> analysed s = false ->
        run.1 = mkHttpResponse 200
                  (SummaryOk (Summary (summary_of session_id s (route_env renv))))
        /\ meetings run.2 = meetings app
        /\ realtime_service run.2
           = Some (end_session st session_id (route_env renv)).2
        /\ sum_final_analysis (summary_of session_id s (route_env renv)) = None).
Proof.
  intros Hst. cbv zeta. unfold end_realtime_session. rewrite Hst. split.
  - intros Hnone. rewrite (end_session_unknown _ _ _ Hnone).
    destruct app as [service stored]. cbn in Hst. now rewrite Hst.
  - intros s Hs Ha. rewrite (end_session_found _ _ _ _ Hs). cbn [snd].
    cbn [summary_of sum_full_transcription sum_final_analysis].
    fold (analysed s). rewrite Ha. now repeat split.
Qed.

(** X27. When the end route answers 200 for a registered session whose
    transcript is not blank, the meetings file holds its old records
    followed by one new record: its id is "realtime_" and the session id,
    its transcription and analysis are those of the summary, its
    timestamp is the creation time of the session, and its embedding is
    what the embedding service returned for the transcription. *)
Theorem end_route_stores_meeting app st (session_id : string) s renv :
  realtime_service app = Some st ->
  active_sessions st !! session_id = Some s ->
  analysed s = true ->
  status (end_realtime_session app session_id renv).1 = 200 ->
  exists m,
    meetings (end_realtime_session app session_id renv).2 = meetings app ++ [m]
    /\ meeting_id m = "realtime_" +:+ session_id
    /\ meeting_timestamp m = created_at s
    /\ meeting_transcription m = full_text s
    /\ meeting_analysis m = Some (analyze_meeting (route_env renv) (full_text s))
    /\ rd_segments_count (meeting_realtime_data m)
       = Z.of_nat (length (transcription_segments s))
    /\ create_embedding renv (full_text s) = Return (meeting_embedding m).
Proof.
  intros Hst Hs Ha. rewrite (end_route_registered _ _ _ _ _ Hst Hs Ha). cbv zeta.
  destruct (store_meeting _ _ _ _) as [stored|e] eqn:E; cbn [fst snd status meetings];
    [|discriminate].
  intros _.
  destruct (store_meeting_appends _ _ _ _ _ (summary_text_truthy _ s _ Ha) E)
    as (m & -> & Hid & _ & Htime & Htext & Han & Hrd & Hemb).
  exists m. rewrite Hid, Htime, Htext, Han, Hrd.
  cbn [summary_of sum_created_at sum_full_transcription sum_final_analysis
       rd_segments_count sum_total_segments] in *.
  rewrite Ha. now repeat split.
Qed.

(** X28. A failure after the session was ended is not undone. When the
    embedding service raises for a registered session whose transcript is
    not blank, the end route answers 500 with the message and writes no
    meeting, but the session has been ended: it is inactive and its
    cleanup thread is started, so the transcript is neither stored nor
    returned. *)
Theorem end_route_embedding_failure app st (session_id : string) s renv (e : exn) :
  realtime_service app = Some st ->
  active_sessions st !! session_id = Some s ->
  analysed s = true ->
  create_embedding renv (full_text s) = Raise e ->
  let run := end_realtime_session app session_id renv in
  run.1 = mkHttpResponse 500 (Failure (str_exn e))
  /\ meetings run.2 = meetings app
  /\ exists st',
      realtime_service run.2 = Some st'
      /\ active_sessions st' !! session_id = Some (set_is_active false s)
      /\ cleanup_threads st' = cleanup_threads st ++ [session_id].
Proof.
  intros Hst Hs Ha Hemb. cbv zeta. rewrite (end_route_registered _ _ _ _ _ Hst Hs Ha).
  cbv zeta. unfold store_meeting. cbn [summary_of sum_full_transcription].
  rewrite (analysed_truthy s Ha), Hemb. cbn [fst snd meetings realtime_service].
  split; [reflexivity|]. split; [reflexivity|].
  eexists. split; [reflexivity|].
  destruct (end_session_state st session_id s (route_env renv) Hs) as [Hreg Hthr].
  split; [rewrite Hreg; apply lookup_insert_eq | exact Hthr].
Qed.

(** X29. Ending a session twice stores it twice. When the end route
    answers 200 twice for a registered session whose transcript is not
    blank (the second call before the cleanup thread removes the
    session), the meetings file ends with two records that have the same
    id and the same transcription. *)
Theorem end_route_twice_stores_twice app st (session_id : string) s renv renv' :
  realtime_service app = Some st ->
  active_sessions st !! session_id = Some s ->
  analysed s = true ->
  let first := end_realtime_session app session_id renv in
  let second := end_realtime_session first.2 session_id renv' in
  status first.1 = 200 -> status second.1 = 200 ->
  exists m1 m2,
    meetings second.2 = meetings app ++ [m1; m2]
    /\ meeting_id m1 = "realtime_" +:+ session_id
    /\ meeting_id m2 = "realtime_" +:+ session_id
    /\ meeting_transcription m1 = full_text s
    /\ meeting_transcription m2 = full_text s.
Proof.
  intros Hst Hs Ha. cbv zeta.
  rewrite (end_route_registered _ _ _ _ _ Hst Hs Ha). cbv zeta.
  destruct (store_meeting _ _ _ renv) as [stored|e] eqn:E1; cbn [fst snd status];
    [|discriminate].
  intros _.
  destruct (store_meeting_appends _ _ _ _ _ (summary_text_truthy _ s _ Ha) E1)
    as (m1 & -> & Hid1 & _ & _ & Htext1 & _).
  destruct (end_session_state st session_id s (route_env renv) Hs) as [Hreg _].
  assert (Hs' : active_sessions (end_session st session_id (route_env renv)).2
                !! session_id = Some (set_is_active false s))
    by (rewrite Hreg; apply lookup_insert_eq).
  assert (Ha' : analysed (set_is_active false s) = true) by exact Ha.
  rewrite (end_route_registered
             (mkApp (Some (end_session st session_id (route_env renv)).2)
                    (meetings app ++ [m1]))
             _ session_id _ renv' eq_refl Hs' Ha').
  cbv zeta.
  cbn [meetings].
  destruct (store_meeting _ _ _ renv') as [stored|e] eqn:E2; cbn [fst snd status meetings];
    [|discriminate].
  intros _.
  destruct (store_meeting_appends _ _ _ _ _ (summary_text_truthy _ _ _ Ha') E2)
    as (m2 & -> & Hid2 & _ & _ & Htext2 & _).
  exists m1, m2. rewrite <- app_assoc.
  split; [reflexivity|]. split; [exact Hid1|]. split; [exact Hid2|].
  split; [exact Htext1 | exact Htext2].
Qed.

(** X30. The start route creates the session before it builds its
    answer. When [jsonify] raises on the session dictionary, the route
    answers 500 with the message, yet the session is registered and
    listed as active. *)
Theorem start_route_failure_keeps_session app st (request : RequestBody) renv (e : exn) :
  realtime_service app = Some st ->
  let session_id :=
    match req_session_id request with
    | Some given => given
    | None => route_default_id renv
    end in
  jsonify_session (new_session session_id (now (route_env renv))) = Raise e ->
  let run := start_realtime_session jsonify_session app (Return request) renv in
  run.1 = mkHttpResponse 500 (Failure (str_exn e))
  /\ meetings run.2 = meetings app
  /\ exists st',
      realtime_service run.2 = Some st'
      /\ active_sessions st' !! session_id
         = Some (new_session session_id (now (route_env renv)))
      /\ session_id ∈ get_active_sessions st'.
Proof.
  intros Hst. cbv zeta. intros Hjson. unfold start_realtime_session. rewrite Hst.
  unfold create_session. rewrite Hjson. cbn [fst snd meetings realtime_service].
  split; [reflexivity|]. split; [reflexivity|].
  eexists. split; [reflexivity|].
  split; [apply lookup_store|].
  apply active_list_elem. eexists. split; [apply lookup_store | reflexivity].
Qed.

End RouteProps.

(** ** The theorems at concrete inputs *)

Lemma service_s1_reachable : reachable (Analysis := string) service_s1.
Proof. exact (reachable_call _ (CallCreate "s1") env_failing reachable_init). Qed.

Lemma service_one_chunk_reachable : reachable (Analysis := string) service_one_chunk.
Proof.
  exact (reachable_call _ (CallChunk "s1" [Byte.x00; Byte.x00]) env_talking
           service_s1_reachable).
Qed.

Lemma lookup_service_one_chunk :
  active_sessions service_one_chunk !! "s1"
  = Some (chunk_result (Analysis := string) "s1" (new_session "s1" (now env_failing))
            [Byte.x00; Byte.x00] env_talking).2.
Proof. vm_compute. reflexivity. Qed.



(** X3 after one chunk. *)
Lemma segments_bounded_by_chunks_witness :
  active_sessions service_one_chunk !! "s1"
  = Some (chunk_result (Analysis := string) "s1" (new_session "s1" (now env_failing))
            [Byte.x00; Byte.x00] env_talking).2
  /\ exists summary,
      (get_session_summary service_one_chunk "s1" env_talking).1
      = Return (Summary summary)
      /\ 0 <= sum_total_segments summary <= sum_total_chunks summary.
Proof.
  split; [exact lookup_service_one_chunk|].
  destruct (segments_bounded_by_chunks service_one_chunk "s1" _ env_talking
              service_one_chunk_reachable lookup_service_one_chunk)
    as (summary & Hsum & Hle & _).
  exists summary. split; [exact Hsum | exact Hle].
Defined.

(** X4 after one chunk. *)
Lemma word_count_is_transcript_words_witness :
  reachable (Analysis := string) service_one_chunk
  /\ exists summary,
      (get_session_summary service_one_chunk "s1" env_talking).1
      = Return (Summary summary)
      /\ word_count (sum_live_analysis summary)
         = Z.of_nat (length (PyStr.split (sum_full_transcription summary))).
Proof.
  split; [exact service_one_chunk_reachable|].
  exact (word_count_is_transcript_words service_one_chunk "s1" _ env_talking
           service_one_chunk_reachable lookup_service_one_chunk).
Defined.

(** X5 on the new session [s1]. *)
Lemma live_analysis_ranges_witness :
  reachable (Analysis := string) service_s1
  /\ speakers_detected (live_analysis (new_session "s1" (now env_failing))) = 0.
Proof.
  split; [exact service_s1_reachable|].
  exact (proj1 (live_analysis_ranges service_s1 "s1" _ service_s1_reachable
                  lookup_service_s1)).
Defined.

(** X6 on the registered session with a history. *)
Lemma process_audio_chunk_only_appends_witness :
  active_sessions service_with_history !! "s1" = Some session_with_history
  /\ exists s',
      active_sessions
        (process_audio_chunk service_with_history "s1" [Byte.x03] env_talking).2 !! "s1"
      = Some s'
      /\ audio_chunks session_with_history `prefix_of` audio_chunks s'.
Proof.
  split; [exact lookup_service_with_history|].
  destruct (process_audio_chunk_only_appends service_with_history "s1" _ [Byte.x03]
              env_talking lookup_service_with_history)
    as (s' & Hs' & Hprefix & _).
  exists s'. split; [exact Hs' | exact Hprefix].
Defined.

(** X8 for one chunk of two bytes. *)
Lemma chunks_below_threshold_buffer_witness :
  Z.of_nat (length (getvalue (audio_buffer (new_session "s1" (now env_failing)))))
  + bytes_received [([Byte.x00; Byte.x00], env_talking)] < flush_threshold
  /\ exists s',
      active_sessions service_one_chunk !! "s1" = Some s'
      /\ getvalue (audio_buffer s') = [Byte.x00; Byte.x00].
Proof.
  assert (H : Z.of_nat (length (getvalue (audio_buffer
                                            (new_session "s1" (now env_failing)))))
              + bytes_received [([Byte.x00; Byte.x00], env_talking)] < flush_threshold)
    by (vm_compute; reflexivity).
  split; [exact H|].
  destruct (chunks_below_threshold_buffer [([Byte.x00; Byte.x00], env_talking)]
              service_s1 "s1" _ service_s1_reachable lookup_service_s1 H)
    as (_ & s' & Hs' & Hv & _).
  exists s'. split; [exact Hs' | exact Hv].
Defined.

Lemma env_failing_silent :
  Forall (fun call : list Byte.byte * Env string =>
            forall audio, _transcribe_chunk call.2 audio = "")
         [([Byte.x00], env_failing)].
Proof. constructor; [|constructor]. intros audio. reflexivity. Qed.

(** X9 for one chunk in the world where transcription fails. *)
Lemma silent_transcription_never_empties_buffer_witness :
  Forall (fun call : list Byte.byte * Env string =>
            forall audio, _transcribe_chunk call.2 audio = "")
         [([Byte.x00], env_failing)]
  /\ exists s',
      active_sessions (process_chunks service_s1 "s1" [([Byte.x00], env_failing)]) !! "s1"
      = Some s'
      /\ transcription_segments s' = [].
Proof.
  split; [exact env_failing_silent|].
  destruct (silent_transcription_never_empties_buffer [([Byte.x00], env_failing)]
              service_s1 "s1" _ service_s1_reachable lookup_service_s1
              env_failing_silent)
    as (_ & s' & Hs' & _ & Hseg & _).
  exists s'. split; [exact Hs' | exact Hseg].
Defined.

(** X10 on the first chunk of the new session [s1]. *)
Lemma threshold_decides_answer_witness :
  reachable (Analysis := string) service_s1
  /\ (process_audio_chunk service_s1 "s1" [Byte.x00] env_talking).1
     = Return (Buffering "s1" 1 1).
Proof.
  split; [exact service_s1_reachable|].
  apply (proj1 (threshold_decides_answer service_s1 "s1" _ [Byte.x00] env_talking
                  service_s1_reachable lookup_service_s1)).
  vm_compute. reflexivity.
Defined.

(** X11 on the new session [s1]. *)
Lemma ended_session_is_reclaimed_witness :
  active_sessions service_s1 !! "s1" = Some (new_session "s1" (now env_failing))
  /\ active_sessions
       (wake_cleanup_thread (length (cleanup_threads service_s1))
          (end_session service_s1 "s1" env_failing).2) !! "s1" = None.
Proof.
  split; [exact lookup_service_s1|].
  exact (proj1 (proj2 (proj2
    (ended_session_is_reclaimed service_s1 "s1" _ env_failing env_failing []
       lookup_service_s1)))).
Defined.

(** X12 on the new session [s1]. *)
Lemma cleanup_removes_recreated_session_witness :
  active_sessions service_s1 !! "s1" = Some (new_session "s1" (now env_failing))
  /\ active_sessions
       (wake_cleanup_thread (length (cleanup_threads service_s1))
          (create_session (end_session service_s1 "s1" env_failing).2 "s1"
             env_talking).2) !! "s1" = None.
Proof.
  split; [exact lookup_service_s1|].
  exact (proj2 (proj2
    (cleanup_removes_recreated_session service_s1 "s1" _ env_failing env_talking
       lookup_service_s1))).
Defined.


(** X17 for a message of type [ping]. *)
Lemma unknown_message_type_changes_nothing_witness :
  process_message decode_two_bytes handler_s1 1%nat
                  (mkMessage (Some "ping") None None) handler_env
  = (HandlerError "Unknown message type: ping", handler_s1).
Proof.
  apply (unknown_message_type_changes_nothing decode_two_bytes handler_s1 1%nat
           (mkMessage (Some "ping") None None) handler_env); discriminate.
Defined.

(** X18 for a connection that never started a session. *)
Lemma connection_without_session_witness :
  truthy_id (clients handler_idle !! 1%nat) = None
  /\ process_message decode_two_bytes handler_idle 1%nat
                     (mkMessage (Some "audio_chunk") None (Some "AAA=")) handler_env
     = (HandlerError "No active session", handler_idle).
Proof.
  assert (H : truthy_id (clients handler_idle !! 1%nat) = None) by reflexivity.
  split; [exact H|].
  apply (proj1 (connection_without_session decode_two_bytes handler_idle 1%nat
                  (mkMessage (Some "audio_chunk") None (Some "AAA=")) handler_env
                  env_talking H)).
  left. reflexivity.
Defined.

(** X19 for the ids [a] and [b]. *)
Lemma second_start_abandons_first_witness :
  "a" <> "b" /\ "b" <> ""
  /\ "a" ∈ get_active_sessions
       (transcription_service
          (cleanup_client
             (process_message decode_two_bytes
                (process_message decode_two_bytes handler_idle 1%nat
                   (mkMessage (Some "start_session") (Some "a") None) handler_env).2
                1%nat (mkMessage (Some "start_session") (Some "b") None) handler_env).2
             1%nat env_talking)).
Proof.
  assert (H1 : "a" <> "b") by discriminate.
  assert (H2 : "b" <> "") by discriminate.
  split; [exact H1|]. split; [exact H2|].
  exact (proj1 (proj2 (proj2 (proj2
    (second_start_abandons_first decode_two_bytes handler_idle 1%nat "a" "b"
       handler_env handler_env env_talking H1 H2))))).
Defined.

Lemma lookup_handler_s1 : clients handler_s1 !! 1%nat = Some "s1".
Proof. reflexivity. Qed.

(** X20 for the connection associated with [s1]. *)
Lemma end_message_then_close_ends_twice_witness :
  clients handler_s1 !! 1%nat = Some "s1"
  /\ cleanup_threads
       (transcription_service
          (cleanup_client
             (process_message decode_two_bytes handler_s1 1%nat
                (mkMessage (Some "end_session") None None) handler_env).2
             1%nat env_talking))
     = ["s1"; "s1"].
Proof.
  split; [exact lookup_handler_s1|].
  assert (Hne : "s1" <> "") by discriminate.
  exact (proj2 (proj2 (proj2 (proj2
    (end_message_then_close_ends_twice decode_two_bytes handler_s1 1%nat "s1" _
       (mkMessage (Some "end_session") None None) handler_env env_talking
       lookup_handler_s1 Hne lookup_service_s1 eq_refl))))).
Defined.

(** X21 for the connection associated with [s1] and a message naming
    another session. *)
Lemma get_summary_prefers_connection_witness :
  clients handler_s1 !! 1%nat = Some "s1"
  /\ exists r,
      (get_session_summary service_s1 "s1" env_talking).1 = Return r
      /\ (process_message decode_two_bytes handler_s1 1%nat
            (mkMessage (Some "get_summary") (Some "other") None) handler_env).1
         = Typed "session_summary" r.
Proof.
  split; [exact lookup_handler_s1|].
  assert (Hne : "s1" <> "") by discriminate.
  destruct (get_summary_prefers_connection decode_two_bytes handler_s1 1%nat "s1"
              (mkMessage (Some "get_summary") (Some "other") None) handler_env
              lookup_handler_s1 Hne eq_refl)
    as ((r & Hr & Hreply) & _).
  exists r. split; [exact Hr|]. now rewrite Hreply.
Defined.



Lemma lookup_missing_in_service_s1 : active_sessions service_s1 !! "nobody" = None.
Proof. vm_compute. reflexivity. Qed.

(** X26 for an id that is not registered. *)
Lemma end_route_stores_nothing_witness :
  realtime_service app_s1 = Some service_s1
  /\ end_realtime_session app_s1 "nobody" route_world
     = (mkHttpResponse 200 (SummaryOk (ErrorDict "Session nobody not found")), app_s1).
Proof.
  split; [reflexivity|].
  exact (proj1 (end_route_stores_nothing unit app_s1 service_s1 "nobody" route_world
                  eq_refl) lookup_missing_in_service_s1).
Defined.

Lemma history_analysed : analysed session_with_history = true.
Proof. reflexivity. Qed.

Lemma end_route_history_ok :
  status (end_realtime_session app_with_history "s1" route_world).1 = 200.
Proof. vm_compute. reflexivity. Qed.

(** X27 for the session with a history. *)
Lemma end_route_stores_meeting_witness :
  status (end_realtime_session app_with_history "s1" route_world).1 = 200
  /\ exists m,
      meetings (end_realtime_session app_with_history "s1" route_world).2 = [m]
      /\ meeting_id m = "realtime_s1".
Proof.
  split; [exact end_route_history_ok|].
  destruct (end_route_stores_meeting unit app_with_history service_with_history "s1"
              session_with_history route_world eq_refl lookup_service_with_history
              history_analysed end_route_history_ok)
    as (m & Hm & Hid & _).
  exists m. split; [exact Hm | exact Hid].
Defined.

(** X28 for the session with a history when the embedding service fails. *)
Lemma end_route_embedding_failure_witness :
  create_embedding route_world_no_embedding (full_text session_with_history)
  = Raise (Exception "Embedding creation failed")
  /\ (end_realtime_session app_with_history "s1" route_world_no_embedding).1
     = mkHttpResponse 500 (Failure "Embedding creation failed").
Proof.
  split; [reflexivity|].
  exact (proj1 (end_route_embedding_failure unit app_with_history service_with_history
                  "s1" session_with_history route_world_no_embedding
                  (Exception "Embedding creation failed") eq_refl
                  lookup_service_with_history history_analysed eq_refl)).
Defined.

Lemma end_route_history_ok_again :
  status (end_realtime_session
            (end_realtime_session app_with_history "s1" route_world).2 "s1"
            route_world).1 = 200.
Proof. vm_compute. reflexivity. Qed.

(** X29 for the session with a history. *)
Lemma end_route_twice_stores_twice_witness :
  status (end_realtime_session app_with_history "s1" route_world).1 = 200
  /\ exists m1 m2,
      meetings (end_realtime_session
                  (end_realtime_session app_with_history "s1" route_world).2 "s1"
                  route_world).2 = [m1; m2]
      /\ meeting_id m1 = meeting_id m2.
Proof.
  split; [exact end_route_history_ok|].
  destruct (end_route_twice_stores_twice unit app_with_history service_with_history "s1"
              session_with_history route_world route_world eq_refl
              lookup_service_with_history history_analysed end_route_history_ok
              end_route_history_ok_again)
    as (m1 & m2 & Hm & Hid1 & Hid2 & _).
  exists m1, m2. split; [exact Hm|]. now rewrite Hid1, Hid2.
Defined.

(** X30 for a request naming the session [s2]. *)
Lemma start_route_failure_keeps_session_witness :
  realtime_service app_s1 = Some service_s1
  /\ (start_realtime_session jsonify_refusing app_s1
        (Return (mkRequestBody (Some "s2") None)) route_world).1
     = mkHttpResponse 500 (Failure "Object of type BytesIO is not JSON serializable").
Proof.
  split; [reflexivity|].
  exact (proj1 (start_route_failure_keeps_session unit jsonify_refusing app_s1 service_s1
                  (mkRequestBody (Some "s2") None) route_world
                  (Exception "Object of type BytesIO is not JSON serializable")
                  eq_refl eq_refl)).
Defined.
